(** * pysra.site: layered soil column for site-response analysis

    A shallow embedding of [src/pysra/site.py] and the properties proved
    about it.

    Conventions of the embedding.
    - Python and numpy numbers are idealised: a finite float is a rational
      ([Q]); the non-finite values numpy produces where Python would raise
      (division by zero, logarithm outside its domain) are kept apart in
      [npfloat].  Rounding is not modelled.
    - The curves of the empirical soil types are computed on [npfloat], so
      that the NaN and the infinities of numpy's arithmetic reach the values
      they store; where a formula returns a complex number the embedding of
      the constructor stops ([OnComplex]).
    - Exceptions are values of [exn], carried by the [result] monad.
    - The numeric routines the module imports ([np.log], [**] with a real
      exponent, [np.pi], the cubic spline of [scipy], the constants [GRAVITY]
      and [KPA_TO_ATM]) are collected in the class [Numerics]; every
      definition and theorem is parametric in it.
    - A slice of a [Profile] ([self[:-1]], [self[start:]]) is the plain list
      of the selected layers, as [collections.UserList] returned it when the
      module was written; it builds no new [Profile].
    - The layers of a profile are distinct objects, each held once: a layer
      is identified by its position in the column. *)

From Stdlib Require Import String.
From Stdlib Require Import QArith Qminmax Lqa ZArith Lia List Bool.
Import ListNotations.
Open Scope Q_scope.

(** ** Exceptions and results *)

Inductive exn : Type :=
| TypeError
| ZeroDivisionError
| AssertionError
| AttributeError
| IndexError
| ValueError
| NotImplementedError
| KeyError.

Inductive result (A : Type) : Type :=
| Ok (a : A)
| Raise (e : exn).

Arguments Ok {A} a.
Arguments Raise {A} e.

Definition bind {A B : Type} (r : result A) (f : A -> result B) : result B :=
  match r with
  | Ok a => f a
  | Raise e => Raise e
  end.

Notation "x <- r ;; k" := (bind r (fun x => k))
  (at level 61, r at next level, right associativity).

(** ** Numbers *)

Definition Qltb (a b : Q) : bool := negb (Qle_bool b a).
Definition Qeqb (a b : Q) : bool := Qeq_bool a b.

(** A numpy float: finite, or one of the IEEE values numpy returns instead
    of raising. *)
Inductive npfloat : Type :=
| Fin (q : Q)
| PInf
| NInf
| NaN.

(** IEEE comparison [x < y]: false as soon as one side is NaN. *)
Definition np_ltb (x y : npfloat) : bool :=
  match x, y with
  | NaN, _ | _, NaN => false
  | Fin a, Fin b => Qltb a b
  | NInf, NInf => false
  | NInf, _ => true
  | _, PInf => match x with PInf => false | _ => true end
  | _, _ => false
  end.

Definition np_gtb (x y : npfloat) : bool := np_ltb y x.

Definition np_sub (x y : npfloat) : npfloat :=
  match x, y with
  | NaN, _ | _, NaN => NaN
  | Fin a, Fin b => Fin (a - b)
  | Fin _, PInf => NInf
  | Fin _, NInf => PInf
  | PInf, PInf => NaN
  | PInf, _ => PInf
  | NInf, NInf => NaN
  | NInf, _ => NInf
  end.

(** numpy division: a zero divisor gives an infinity or NaN and a
    RuntimeWarning, never an exception. *)
Definition np_div (x y : npfloat) : npfloat :=
  match x, y with
  | NaN, _ | _, NaN => NaN
  | Fin a, Fin b =>
      if Qeqb b 0 then
        if Qeqb a 0 then NaN else if Qltb 0 a then PInf else NInf
      else Fin (a / b)
  | Fin _, _ => Fin 0
  | PInf, Fin b => if Qltb b 0 then NInf else PInf
  | NInf, Fin b => if Qltb b 0 then PInf else NInf
  | _, _ => NaN
  end.

Definition np_mul (x y : npfloat) : npfloat :=
  match x, y with
  | NaN, _ | _, NaN => NaN
  | Fin a, Fin b => Fin (a * b)
  | Fin a, PInf | PInf, Fin a =>
      if Qeqb a 0 then NaN else if Qltb 0 a then PInf else NInf
  | Fin a, NInf | NInf, Fin a =>
      if Qeqb a 0 then NaN else if Qltb 0 a then NInf else PInf
  | PInf, PInf | NInf, NInf => PInf
  | PInf, NInf | NInf, PInf => NInf
  end.

Definition is_nan (x : npfloat) : bool :=
  match x with NaN => true | _ => false end.

(** [np.max] of a non-empty array: NaN as soon as one element is NaN. *)
Definition np_max2 (x y : npfloat) : npfloat :=
  if is_nan x then NaN else if is_nan y then NaN
  else if np_ltb x y then y else x.

Definition np_max_list (a : list npfloat) : result npfloat :=
  match a with
  | [] => Raise ValueError
  | x :: rest => Ok (fold_left np_max2 rest x)
  end.

(** The numeric routines and constants the module imports. *)
Class Numerics : Type := {
  GRAVITY : Q;            (* motion.GRAVITY *)
  KPA_TO_ATM : Q;         (* scipy.constants.kilo / scipy.constants.atm *)
  np_pi : Q;              (* np.pi *)
  ln : Q -> Q;            (* np.log on a positive argument *)
  log10 : Q -> Q;         (* np.log10 on a positive argument *)
  pow : Q -> Q -> Q;      (* x ** y on a positive base *)
  cubic_spline : list (Q * Q) -> Q -> Q
                          (* scipy's cubic interpolant through sorted knots *)
}.

(** [np.log]: minus infinity at zero, NaN below. *)
Definition np_log `{Numerics} (s : Q) : npfloat :=
  if Qltb 0 s then Fin (ln s)
  else if Qeqb s 0 then NInf
  else NaN.

(** ** NonlinearProperty *)

Inductive interp_kind : Type := linear | cubic.

(** The object [scipy.interpolate.interp1d] builds with
    [bounds_error=False, fill_value=(below, above)]: the abscissae sorted
    (with the ordinates carried along), and the two fill values. *)
Record interp1d : Type := {
  ip_kind : interp_kind;
  ip_x : list npfloat;
  ip_y : list Q;
  ip_fill_below : Q;
  ip_fill_above : Q
}.

(** The order [np.argsort] sorts by: NaN last. *)
Definition sort_leb (x y : npfloat) : bool :=
  match x, y with
  | _, NaN => true
  | NaN, _ => false
  | _, _ => negb (np_ltb y x)
  end.

Fixpoint insert_pt (p : npfloat * Q) (l : list (npfloat * Q))
  : list (npfloat * Q) :=
  match l with
  | [] => [p]
  | q :: rest =>
      if sort_leb (fst q) (fst p) then q :: insert_pt p rest
      else p :: q :: rest
  end.

(** Stable sort of the points by abscissa. *)
Definition sort_pts (l : list (npfloat * Q)) : list (npfloat * Q) :=
  fold_left (fun acc p => insert_pt p acc) l [].

Definition make_interp1d (x : list npfloat) (y : list Q) (k : interp_kind)
  (fill : Q * Q) : interp1d :=
  let pts := sort_pts (combine x y) in
  {| ip_kind := k;
     ip_x := map fst pts;
     ip_y := map snd pts;
     ip_fill_below := fst fill;
     ip_fill_above := snd fill |}.

(** [np.interp] between sorted knots. *)
Fixpoint linear_interp (pts : list (Q * Q)) (x : Q) : Q :=
  match pts with
  | [] => 0
  | (x0, y0) :: rest =>
      match rest with
      | [] => y0
      | (x1, y1) :: _ =>
          if Qltb x x1 then y0 + (y1 - y0) / (x1 - x0) * (x - x0)
          else linear_interp rest x
      end
  end.

Fixpoint finite_pts (x : list npfloat) (y : list Q) : option (list (Q * Q)) :=
  match x, y with
  | Fin a :: x', b :: y' =>
      match finite_pts x' y' with
      | Some l => Some ((a, b) :: l)
      | None => None
      end
  | [], _ => Some []
  | _, _ => None
  end.

(** The interpolated value inside the range; NaN when the argument or a knot
    is not finite. *)
Definition interp_inside `{Numerics} (ip : interp1d) (x_new : npfloat)
  : npfloat :=
  match x_new, finite_pts (ip_x ip) (ip_y ip) with
  | Fin q, Some pts =>
      match ip_kind ip with
      | linear => Fin (linear_interp pts q)
      | cubic => Fin (cubic_spline pts q)
      end
  | _, _ => NaN
  end.

(** Evaluation: the interpolant, overwritten by the fill values where the
    argument is below the first or above the last sorted abscissa. *)
Definition interp1d_call `{Numerics} (ip : interp1d) (x_new : npfloat)
  : npfloat :=
  let y_new := interp_inside ip x_new in
  let below_bounds := np_ltb x_new (hd NaN (ip_x ip)) in
  let above_bounds := np_gtb x_new (last (ip_x ip) NaN) in
  if above_bounds then Fin (ip_fill_above ip)
  else if below_bounds then Fin (ip_fill_below ip)
  else y_new.

Definition PARAMS : list string := ["mod_reduc"%string; "damping"%string].

Record NonlinearProperty : Type := {
  name : string;
  _strains : list Q;
  _values : list Q;
  _interpolater : option interp1d;
  _param : option string
}.

(** [NonlinearProperty._update]: builds the interpolater when the strains are
    non-empty and as many as the values; leaves it alone otherwise. *)
Definition _update `{Numerics} (p : NonlinearProperty) : NonlinearProperty :=
  if negb (Nat.eqb (length (_strains p)) 0)
     && Nat.eqb (length (_strains p)) (length (_values p))
  then
    let x := map np_log (_strains p) in
    let y := _values p in
    let fill := (hd 0 y, last y 0) in
    {| name := name p;
       _strains := _strains p;
       _values := _values p;
       _interpolater :=
         Some (make_interp1d x y
                 (if Nat.ltb (length x) 4 then linear else cubic) fill);
       _param := _param p |}
  else p.

(** The [param] setter: a non-empty tag must be one of [PARAMS]. *)
Definition set_param (p : NonlinearProperty) (value : option string)
  : result NonlinearProperty :=
  let store :=
    {| name := name p; _strains := _strains p; _values := _values p;
       _interpolater := _interpolater p; _param := value |} in
  match value with
  | Some tag =>
      if String.eqb tag ""%string then Ok store
      else if existsb (String.eqb tag) PARAMS then Ok store
      else Raise AssertionError
  | None => Ok store
  end.

(** [NonlinearProperty.__init__]. *)
Definition NonlinearProperty_init `{Numerics} (nm : string)
  (strains values : list Q) (param : option string)
  : result NonlinearProperty :=
  p <- set_param {| name := nm; _strains := strains; _values := values;
                    _interpolater := None; _param := None |} param ;;
  Ok (_update p).

Definition set_strains `{Numerics} (p : NonlinearProperty) (strains : list Q)
  : NonlinearProperty :=
  _update {| name := name p; _strains := strains; _values := _values p;
             _interpolater := _interpolater p; _param := _param p |}.

Definition set_values `{Numerics} (p : NonlinearProperty) (values : list Q)
  : NonlinearProperty :=
  _update {| name := name p; _strains := _strains p; _values := values;
             _interpolater := _interpolater p; _param := _param p |}.

(** [NonlinearProperty.__call__] at one strain: calling the missing
    interpolater ([None]) is a [TypeError]. *)
Definition NonlinearProperty_call `{Numerics} (p : NonlinearProperty)
  (strain : Q) : result npfloat :=
  match _interpolater p with
  | None => Raise TypeError
  | Some ip => Ok (interp1d_call ip (np_log strain))
  end.

(** ** SoilType *)

(** What the attributes [mod_reduc] and [damping] of a soil type may hold:
    [None], a number, or a curve. *)
Inductive prop_field : Type :=
| PNone
| PScalar (q : Q)
| PCurve (c : NonlinearProperty).

Record SoilType : Type := {
  st_name : string;
  _unit_wt : Q;
  mod_reduc : prop_field;
  damping : prop_field
}.

(** [SoilType.__init__]. *)
Definition SoilType_init (nm : string) (unit_wt : Q)
  (mr dm : prop_field) : SoilType :=
  {| st_name := nm; _unit_wt := unit_wt; mod_reduc := mr; damping := dm |}.

Definition unit_wt (st : SoilType) : Q := _unit_wt st.

Definition density `{Numerics} (st : SoilType) : Q := unit_wt st / GRAVITY.

Definition is_curve (f : prop_field) : bool :=
  match f with PCurve _ => true | _ => false end.

Definition is_nonlinear (st : SoilType) : bool :=
  existsb is_curve [mod_reduc st; damping st].

(** Values held by the attributes the solver iterates on: [None], a Python
    number, a numpy scalar, a numpy array, or a curve object. *)
Inductive pyval : Type :=
| PyNone
| PyNum (q : Q)
| NpNum (x : npfloat)
| NpArr (a : list npfloat)
| PyCurve (c : NonlinearProperty).

Definition field_value (f : prop_field) : pyval :=
  match f with
  | PNone => PyNone
  | PScalar q => PyNum q
  | PCurve c => PyCurve c
  end.

(** [damping_min]: the first value of the damping curve ([IndexError] on an
    empty curve), or the attribute itself when it has no [values]. *)
Definition damping_min (st : SoilType) : result pyval :=
  match damping st with
  | PCurve c =>
      match _values c with
      | v :: _ => Ok (NpNum (Fin v))
      | [] => Raise IndexError
      end
  | f => Ok (field_value f)
  end.

(** Calling an attribute with a strain: a curve evaluates, anything else is
    not callable. *)
Definition call_field `{Numerics} (f : prop_field) (strain : Q)
  : result pyval :=
  match f with
  | PCurve c => x <- NonlinearProperty_call c strain ;; Ok (NpNum x)
  | _ => Raise TypeError
  end.

(** ** Arithmetic on values *)

Fixpoint zip_with (f : npfloat -> npfloat -> npfloat) (a b : list npfloat)
  : list npfloat :=
  match a, b with
  | x :: a', y :: b' => f x y :: zip_with f a' b'
  | _, _ => []
  end.

(** numpy broadcasting of two one-dimensional arrays. *)
Definition broadcast (f : npfloat -> npfloat -> npfloat)
  (a b : list npfloat) : result (list npfloat) :=
  if Nat.eqb (length a) (length b) then Ok (zip_with f a b)
  else
    match a, b with
    | [x], _ => Ok (map (f x) b)
    | _, [y] => Ok (map (fun x => f x y) a)
    | _, _ => Raise ValueError
    end.

(** A binary operator: Python's own rule between two Python numbers,
    numpy's elementwise rule as soon as one operand is a numpy value. *)
Definition py_binop (pyop : Q -> Q -> result Q)
  (npop : npfloat -> npfloat -> npfloat) (a b : pyval) : result pyval :=
  match a, b with
  | PyNum p, PyNum q => r <- pyop p q ;; Ok (PyNum r)
  | PyNum p, NpNum y => Ok (NpNum (npop (Fin p) y))
  | NpNum x, PyNum q => Ok (NpNum (npop x (Fin q)))
  | NpNum x, NpNum y => Ok (NpNum (npop x y))
  | PyNum p, NpArr ys => Ok (NpArr (map (npop (Fin p)) ys))
  | NpNum x, NpArr ys => Ok (NpArr (map (npop x) ys))
  | NpArr xs, PyNum q => Ok (NpArr (map (fun x => npop x (Fin q)) xs))
  | NpArr xs, NpNum y => Ok (NpArr (map (fun x => npop x y) xs))
  | NpArr xs, NpArr ys => r <- broadcast npop xs ys ;; Ok (NpArr r)
  | _, _ => Raise TypeError
  end.

Definition py_sub : pyval -> pyval -> result pyval :=
  py_binop (fun p q => Ok (p - q)) np_sub.

Definition py_mul : pyval -> pyval -> result pyval :=
  py_binop (fun p q => Ok (p * q)) np_mul.

(** Python's [/] raises on a zero divisor; numpy's does not. *)
Definition py_div : pyval -> pyval -> result pyval :=
  py_binop (fun p q => if Qeqb q 0 then Raise ZeroDivisionError
                       else Ok (p / q)) np_div.

(** [np.max] of a value. *)
Definition np_max (v : pyval) : result npfloat :=
  match v with
  | PyNum q => Ok (Fin q)
  | NpNum x => Ok x
  | NpArr a => np_max_list a
  | _ => Raise TypeError
  end.

(** ** IterativeValue *)

Record IterativeValue : Type := {
  _value : pyval;
  _previous : pyval
}.

Definition IterativeValue_init (v : pyval) : IterativeValue :=
  {| _value := v; _previous := PyNone |}.

Definition value (iv : IterativeValue) : pyval := _value iv.
Definition previous (iv : IterativeValue) : pyval := _previous iv.

Definition set_value (iv : IterativeValue) (v : pyval) : IterativeValue :=
  {| _value := v; _previous := _value iv |}.

Definition IterativeValue_reset (iv : IterativeValue) : IterativeValue :=
  {| _value := _value iv; _previous := PyNone |}.

(** The expression inside the [try]. *)
Definition relative_error_body (iv : IterativeValue) : result npfloat :=
  d <- py_sub (previous iv) (value iv) ;;
  r <- py_div d (value iv) ;;
  m <- np_max r ;;
  Ok (np_mul (Fin 100) m).

(** [IterativeValue.relative_error]: only [ZeroDivisionError] is caught. *)
Definition relative_error (iv : IterativeValue) : result npfloat :=
  match previous iv with
  | PyNone => Ok (Fin 0)
  | _ =>
      match relative_error_body iv with
      | Raise ZeroDivisionError => Ok PInf
      | r => r
      end
  end.

(** ** Layer *)

(** The back-reference of a layer to its profile.  Through it the layer reads
    only the water-table depth, which no code of the module reassigns after
    the profile is built; the reference is modelled by that depth. *)
Record ProfileRef : Type := { ref_wt_depth : Q }.

(** [Layer._strain]: an [IterativeValue], or the raw strain a linear soil
    stores in its place. *)
Inductive strain_field : Type :=
| StrainIter (iv : IterativeValue)
| StrainRaw (v : pyval).

Record Layer : Type := {
  _profile : option ProfileRef;
  _soil_type : SoilType;
  _thickness : Q;
  _initial_shear_vel : Q;
  _damping : IterativeValue;
  _shear_mod : IterativeValue;
  _strain : strain_field;
  _depth : Q;
  _vert_stress : Q
}.

Definition soil_type (l : Layer) : SoilType := _soil_type l.
Definition thickness (l : Layer) : Q := _thickness l.
Definition initial_shear_vel (l : Layer) : Q := _initial_shear_vel l.
Definition depth (l : Layer) : Q := _depth l.
Definition depth_mid (l : Layer) : Q := _depth l + _thickness l / 2.
Definition depth_base (l : Layer) : Q := _depth l + _thickness l.
Definition shear_mod (l : Layer) : IterativeValue := _shear_mod l.
Definition Layer_damping (l : Layer) : IterativeValue := _damping l.
Definition Layer_unit_wt (l : Layer) : Q := unit_wt (soil_type l).
Definition Layer_density `{Numerics} (l : Layer) : Q := density (soil_type l).

Definition initial_shear_mod `{Numerics} (l : Layer) : Q :=
  Layer_density l * initial_shear_vel l ^ 2.

Definition with_iteration (l : Layer) (sm dm : IterativeValue)
  (s : strain_field) : Layer :=
  {| _profile := _profile l; _soil_type := _soil_type l;
     _thickness := _thickness l; _initial_shear_vel := _initial_shear_vel l;
     _damping := dm; _shear_mod := sm; _strain := s;
     _depth := _depth l; _vert_stress := _vert_stress l |}.

Definition with_thickness (l : Layer) (t : Q) : Layer :=
  {| _profile := _profile l; _soil_type := _soil_type l;
     _thickness := t; _initial_shear_vel := _initial_shear_vel l;
     _damping := _damping l; _shear_mod := _shear_mod l;
     _strain := _strain l;
     _depth := _depth l; _vert_stress := _vert_stress l |}.

Definition with_position (l : Layer) (r : ProfileRef) (d vs : Q) : Layer :=
  {| _profile := Some r; _soil_type := _soil_type l;
     _thickness := _thickness l; _initial_shear_vel := _initial_shear_vel l;
     _damping := _damping l; _shear_mod := _shear_mod l;
     _strain := _strain l;
     _depth := d; _vert_stress := vs |}.

(** [Layer.reset]. *)
Definition Layer_reset `{Numerics} (l : Layer) : result Layer :=
  let sm := IterativeValue_init (PyNum (initial_shear_mod l)) in
  dmin <- damping_min (soil_type l) ;;
  Ok (with_iteration l sm (IterativeValue_init dmin)
        (StrainIter (IterativeValue_init PyNone))).

(** [Layer.__init__]. *)
Definition Layer_init `{Numerics} (st : SoilType) (thick shear_vel : Q)
  : result Layer :=
  Layer_reset
    {| _profile := None; _soil_type := st; _thickness := thick;
       _initial_shear_vel := shear_vel;
       _damping := IterativeValue_init PyNone;
       _shear_mod := IterativeValue_init PyNone;
       _strain := StrainIter (IterativeValue_init PyNone);
       _depth := 0; _vert_stress := 0 |}.

(** Python's [max(a, b)]: [b] only when [b > a]. *)
Definition py_max (a b : npfloat) : npfloat := if np_gtb b a then b else a.

(** [Layer.max_error]. *)
Definition max_error (l : Layer) : result npfloat :=
  a <- relative_error (shear_mod l) ;;
  b <- relative_error (Layer_damping l) ;;
  Ok (py_max a b).

(** [try: f(strain) except TypeError: fallback]. *)
Definition call_or `{Numerics} (f : prop_field) (strain : Q)
  (fallback : pyval) : result pyval :=
  match call_field f strain with
  | Raise TypeError => Ok fallback
  | r => r
  end.

(** The [strain] setter. *)
Definition set_strain `{Numerics} (l : Layer) (strain : Q) : result Layer :=
  s <- (if is_nonlinear (soil_type l) then
          match _strain l with
          | StrainIter iv => Ok (StrainIter (set_value iv (PyNum strain)))
          | StrainRaw _ => Raise AttributeError
          end
        else Ok (StrainRaw (PyNum strain))) ;;
  mr <- call_or (mod_reduc (soil_type l)) strain (PyNum 1) ;;
  sm <- py_mul (PyNum (initial_shear_mod l)) mr ;;
  dm <- call_or (damping (soil_type l)) strain
          (field_value (damping (soil_type l))) ;;
  Ok (with_iteration l (set_value (_shear_mod l) sm)
        (set_value (_damping l) dm) s).

(** Successive assignments of the strains of a list, as the iterations of a
    solver make them. *)
Fixpoint set_strain_all `{Numerics} (l : Layer) (strains : list Q)
  : result Layer :=
  match strains with
  | [] => Ok l
  | s :: rest => l1 <- set_strain l s ;; set_strain_all l1 rest
  end.

(** ** Profile *)

Record Profile : Type := {
  data : list Layer;
  wt_depth : Q
}.

Definition profile_ref (p : Profile) : ProfileRef :=
  {| ref_wt_depth := wt_depth p |}.

Definition pore_pressure_at `{Numerics} (wt d : Q) : Q :=
  GRAVITY * Qmax (d - wt) 0.

(** [Profile.pore_pressure]. *)
Definition pore_pressure `{Numerics} (p : Profile) (d : Q) : Q :=
  pore_pressure_at (wt_depth p) d.

(** [Layer.vert_stress]. *)
Definition vert_stress `{Numerics} (l : Layer) (depth_within : Q)
  (effective : bool) : result Q :=
  if Qle_bool depth_within (thickness l) then
    let vs := _vert_stress l + depth_within * Layer_unit_wt l in
    if effective then
      match _profile l with
      | None => Raise AttributeError
      | Some r =>
          Ok (vs - pore_pressure_at (ref_wt_depth r) (depth l + depth_within))
      end
    else Ok vs
  else Raise AssertionError.

(** The loop of [update_layers] over [self[start_layer:]]: every layer gets
    the running depth and stress; they advance past every layer but the last
    of the profile. *)
Fixpoint update_from `{Numerics} (r : ProfileRef) (d vs : Q)
  (ls : list Layer) : result (list Layer) :=
  match ls with
  | [] => Ok []
  | l :: rest =>
      let l' := with_position l r d vs in
      match rest with
      | [] => Ok [l']
      | _ :: _ =>
          vs' <- vert_stress l' (thickness l') false ;;
          rest' <- update_from r (depth_base l') vs' rest ;;
          Ok (l' :: rest')
      end
  end.

(** [Profile.update_layers]. *)
Definition update_layers `{Numerics} (p : Profile) (start_layer : nat)
  : result Profile :=
  start <-
    (if Nat.ltb start_layer 1 then Ok (0, 0)
     else
       match nth_error (data p) (start_layer - 1) with
       | None => Raise IndexError
       | Some ref_layer =>
           vs <- vert_stress ref_layer (thickness ref_layer) false ;;
           Ok (depth_base ref_layer, vs)
       end) ;;
  ls <- update_from (profile_ref p) (fst start) (snd start)
          (skipn start_layer (data p)) ;;
  Ok {| data := firstn start_layer (data p) ++ ls; wt_depth := wt_depth p |}.

(** [Profile.__init__]. *)
Definition Profile_init `{Numerics} (layers : list Layer) (wt : Q)
  : result Profile :=
  let p := {| data := layers; wt_depth := wt |} in
  match layers with
  | [] => Ok p
  | _ :: _ => update_layers p 0
  end.

(** An argument passed to [update_layers]. *)
Inductive pyarg : Type :=
| ArgInt (n : nat)
| ArgLayer (l : Layer).

(** Binding of the positional arguments of a call
    [profile.update_layers(...)] to the signature
    [update_layers(self, start_layer=0)]: more than one argument cannot be
    bound, and a layer in the place of [start_layer] cannot be compared with
    [1]. *)
Definition call_update_layers `{Numerics} (p : Profile) (args : list pyarg)
  : result Profile :=
  match args with
  | [] => update_layers p 0
  | [ArgInt n] => update_layers p n
  | [ArgLayer _] => Raise TypeError
  | _ :: _ :: _ => Raise TypeError
  end.

(** The state a statement leaves and the exception it raised, if any. *)
Record outcome : Type := {
  state : Profile;
  raised : option exn
}.

Definition replace_nth (ls : list Layer) (i : nat) (l : Layer) : list Layer :=
  firstn i ls ++ l :: skipn (S i) ls.

(** The statement [profile[i].thickness = t], through the [thickness]
    setter: the thickness is stored, then
    [self._profile.update_layers(self, self._profile.index(self) + 1)]
    is evaluated. *)
Definition set_thickness `{Numerics} (p : Profile) (i : nat) (t : Q)
  : outcome :=
  match nth_error (data p) i with
  | None => {| state := p; raised := Some IndexError |}
  | Some l =>
      let l' := with_thickness l t in
      let p' := {| data := replace_nth (data p) i l';
                   wt_depth := wt_depth p |} in
      match _profile l' with
      | None => {| state := p'; raised := Some AttributeError |}
      | Some _ =>
          match call_update_layers p' [ArgLayer l'; ArgInt (i + 1)] with
          | Ok p'' => {| state := p''; raised := None |}
          | Raise e => {| state := p'; raised := Some e |}
          end
      end
  end.

(** ** Location *)

(** The enumeration [motion.WaveField] and its lookup by name. *)
Class WaveFields : Type := {
  WaveField : Type;
  wave_field_named : string -> option WaveField
}.

Record Location `{WaveFields} : Type := {
  loc_index : nat;
  loc_layer : Layer;
  loc_depth_within : Q;
  loc_wave_field : WaveField
}.

(** A wave field given as a member or by name: an unknown name fails. *)
Definition resolve_wave_field `{WaveFields} (wf : WaveField + string)
  : result WaveField :=
  match wf with
  | inl w => Ok w
  | inr nm =>
      match wave_field_named nm with
      | Some w => Ok w
      | None => Raise KeyError
      end
  end.

Definition Location_init `{WaveFields} (i : nat) (l : Layer)
  (wf : WaveField + string) (depth_within : Q) : result Location :=
  w <- resolve_wave_field wf ;;
  Ok {| loc_index := i; loc_layer := l; loc_depth_within := depth_within;
        loc_wave_field := w |}.

(** [Location.vert_stress]. *)
Definition Location_vert_stress `{Numerics} `{WaveFields} (loc : Location)
  (effective : bool) : result Q :=
  vert_stress (loc_layer loc) (loc_depth_within loc) effective.

(** The [for ... else] of [Profile.location] over [enumerate(self[:-1])]:
    the first layer whose range holds the depth, if any. *)
Fixpoint scan_layers (ls : list Layer) (i : nat) (d : Q)
  : option (nat * Layer * Q) :=
  match ls with
  | [] => None
  | l :: rest =>
      if Qle_bool (depth l) d && Qltb d (depth_base l)
      then Some (i, l, d - depth l)
      else scan_layers rest (S i) d
  end.

(** A Python index into a sequence of length [n]: negative indices count
    from the end. *)
Definition py_index (n : nat) (k : Z) : option nat :=
  if (0 <=? k)%Z then
    if (k <? Z.of_nat n)%Z then Some (Z.to_nat k) else None
  else if (0 <=? k + Z.of_nat n)%Z then Some (Z.to_nat (k + Z.of_nat n))
  else None.

(** [Profile.location]. *)
Definition location `{Numerics} `{WaveFields} (p : Profile)
  (wf : WaveField + string) (d : option Q) (index : option Z)
  : result Location :=
  w <- resolve_wave_field wf ;;
  match index, d with
  | None, Some dv =>
      match scan_layers (removelast (data p)) 0 dv with
      | Some (i, l, dw) => Location_init i l (inl w) dw
      | None =>
          match data p with
          | [] => Raise IndexError
          | l0 :: ls =>
              Location_init (length (data p) - 1) (last ls l0) (inl w) 0
          end
      end
  | Some k, None =>
      match py_index (length (data p)) k with
      | None => Raise IndexError
      | Some i =>
          match nth_error (data p) i with
          | None => Raise IndexError
          | Some l => Location_init i l (inl w) 0
          end
      end
  | _, _ => Raise NotImplementedError
  end.

(** [Profile.auto_discretize]. *)
Definition auto_discretize (p : Profile) : result unit :=
  Raise NotImplementedError.

(** ** Empirical soil types *)

(** *** Floating-point operations of the curve computations *)

Definition np_add (x y : npfloat) : npfloat :=
  match x, y with
  | NaN, _ | _, NaN => NaN
  | Fin a, Fin b => Fin (a + b)
  | PInf, NInf | NInf, PInf => NaN
  | PInf, _ | _, PInf => PInf
  | NInf, _ | _, NInf => NInf
  end.

(** IEEE comparison [x <= y]: false as soon as one side is NaN. *)
Definition np_leb (x y : npfloat) : bool :=
  match x, y with
  | NaN, _ | _, NaN => false
  | _, _ => negb (np_ltb y x)
  end.

(** [np.maximum]: NaN as soon as one argument is NaN. *)
Definition np_maximum (x y : npfloat) : npfloat :=
  if is_nan x then NaN else if is_nan y then NaN
  else if np_ltb x y then y else x.

(** [np.log] on a float. *)
Definition np_log_f `{Numerics} (x : npfloat) : npfloat :=
  match x with
  | Fin q => np_log q
  | PInf => PInf
  | _ => NaN
  end.

(** [np.log10] of a number: minus infinity at zero, NaN below. *)
Definition np_log10 `{Numerics} (s : Q) : npfloat :=
  if Qltb 0 s then Fin (log10 s)
  else if Qeqb s 0 then NInf
  else NaN.

Definition is_integer (y : Q) : bool := Pos.eqb (Qden (Qred y)) 1.

Definition is_odd_integer (y : Q) : bool :=
  is_integer y && Z.odd (Qnum (Qred y)).

Definition abs_below_one (b : Q) : bool := Qltb (-1) b && Qltb b 1.

Definition abs_is_one (b : Q) : bool := Qeqb b 1 || Qeqb b (-1).

(** numpy's [**] on floats: the power function of C, which returns NaN,
    zero or an infinity where the real power is undefined or unbounded, and
    never raises.  [pow] of the class is the real power on a positive
    base. *)
Definition np_pow `{Numerics} (x y : npfloat) : npfloat :=
  match y with
  | Fin e =>
      if Qeqb e 0 then Fin 1
      else
        match x with
        | NaN => NaN
        | Fin b =>
            if Qltb 0 b then Fin (pow b e)
            else if Qeqb b 0 then (if Qltb 0 e then Fin 0 else PInf)
            else if is_integer e then Fin (b ^ Qnum (Qred e))
            else NaN
        | PInf => if Qltb 0 e then PInf else Fin 0
        | NInf =>
            if Qltb 0 e then (if is_odd_integer e then NInf else PInf)
            else Fin 0
        end
  | NaN =>
      match x with
      | Fin b => if Qeqb b 1 then Fin 1 else NaN
      | _ => NaN
      end
  | PInf =>
      match x with
      | NaN => NaN
      | Fin b =>
          if abs_is_one b then Fin 1
          else if abs_below_one b then Fin 0 else PInf
      | _ => PInf
      end
  | NInf =>
      match x with
      | NaN => NaN
      | Fin b =>
          if abs_is_one b then Fin 1
          else if abs_below_one b then PInf else Fin 0
      | _ => Fin 0
      end
  end.

(** [np.maximum.accumulate]: the running maximum; a NaN stays. *)
Fixpoint accumulate_from (m : npfloat) (l : list npfloat) : list npfloat :=
  match l with
  | [] => []
  | x :: rest =>
      let m' := np_maximum m x in m' :: accumulate_from m' rest
  end.

Definition maximum_accumulate (l : list npfloat) : list npfloat :=
  match l with
  | [] => []
  | x :: rest => x :: accumulate_from x rest
  end.

(** *** Python scalars of the formula hooks *)

(** What a hook returns: a float, or a complex number.  Python's [**]
    gives a complex number for a negative base under a fractional exponent;
    the embedding records that this happened and follows the value no
    further. *)
Inductive pyscalar : Type :=
| SFloat (x : npfloat)
| SComplex.

Definition s_lift (f : npfloat -> npfloat -> npfloat) (a b : pyscalar)
  : pyscalar :=
  match a, b with
  | SFloat x, SFloat y => SFloat (f x y)
  | _, _ => SComplex
  end.

Definition s_add : pyscalar -> pyscalar -> pyscalar := s_lift np_add.
Definition s_mul : pyscalar -> pyscalar -> pyscalar := s_lift np_mul.
Definition s_num (q : Q) : pyscalar := SFloat (Fin q).

(** Python's [x ** y] between two floats: [ZeroDivisionError] for zero to
    a negative power, a complex number for a negative base under a
    fractional exponent. *)
Definition py_pow `{Numerics} (x y : Q) : result pyscalar :=
  if Qeqb y 0 then Ok (s_num 1)
  else if Qltb 0 x then Ok (s_num (pow x y))
  else if Qeqb x 0 then
    (if Qltb y 0 then Raise ZeroDivisionError else Ok (s_num 0))
  else if is_integer y then Ok (s_num (x ^ Qnum (Qred y)))
  else Ok SComplex.

(** [x ** y] with an exponent that was itself computed. *)
Definition py_pow_s `{Numerics} (x : Q) (y : pyscalar) : result pyscalar :=
  match y with
  | SFloat (Fin e) => py_pow x e
  | SFloat e => Ok (SFloat (np_pow (Fin x) e))
  | SComplex => if Qeqb x 0 then Raise ZeroDivisionError else Ok SComplex
  end.

(** *** The classes *)

Inductive soil_class : Type := Darendeli | Menq.

(** The instance attributes the formula hooks read.  The two attributes of
    [MenqSoilType] are absent until its constructor assigns them. *)
Record EmpiricalAttrs : Type := {
  _plas_index : Q;
  _ocr : Q;
  _mean_stress : Q;
  _freq : Q;
  _num_cycles : Q;
  _uniformity_coeff : option Q;
  _diam_mean : option Q
}.

(** Reading an attribute that may not be set yet. *)
Definition getattr (a : option Q) : result Q :=
  match a with
  | Some v => Ok v
  | None => Raise AttributeError
  end.

(** The hooks, dispatched on the class of the object. *)
Definition _calc_damping_min `{Numerics} (cls : soil_class)
  (o : EmpiricalAttrs) : result pyscalar :=
  match cls with
  | Darendeli =>
      p_ocr <- py_pow (_ocr o) (-0.1069) ;;
      p_stress <- py_pow (_mean_stress o * KPA_TO_ATM) (-0.2889) ;;
      Ok (s_mul
            (s_mul
               (s_add (s_num 0.8005)
                  (s_mul (s_num (0.0129 * _plas_index o)) p_ocr))
               p_stress)
            (SFloat (np_add (Fin 1)
                       (np_mul (Fin 0.2919) (np_log (_freq o))))))
  | Menq =>
      cu <- getattr (_uniformity_coeff o) ;;
      p_cu <- py_pow cu 0.1 ;;
      dm <- getattr (_diam_mean o) ;;
      p_dm <- py_pow dm (-0.3) ;;
      p_stress <- py_pow (_mean_stress o) (-0.08) ;;
      Ok (s_mul (s_mul (s_mul (s_num 0.55) p_cu) p_dm) p_stress)
  end.

Definition _calc_strain_ref `{Numerics} (cls : soil_class)
  (o : EmpiricalAttrs) : result pyscalar :=
  match cls with
  | Darendeli =>
      p_ocr <- py_pow (_ocr o) 0.3246 ;;
      p_stress <- py_pow (_mean_stress o * KPA_TO_ATM) 0.3483 ;;
      Ok (s_mul
            (s_add (s_num 0.0352)
               (s_mul (s_num (0.0010 * _plas_index o)) p_ocr))
            p_stress)
  | Menq =>
      cu <- getattr (_uniformity_coeff o) ;;
      p_cu <- py_pow cu (-0.6) ;;
      cu' <- getattr (_uniformity_coeff o) ;;
      p_cu' <- py_pow cu' (-0.15) ;;
      p_stress <- py_pow_s (_mean_stress o) (s_mul (s_num 0.5) p_cu') ;;
      Ok (s_mul (s_mul (s_num 0.12) p_cu) p_stress)
  end.

Definition _calc_curvature `{Numerics} (cls : soil_class)
  (o : EmpiricalAttrs) : result pyscalar :=
  match cls with
  | Darendeli => Ok (s_num 0.9190)
  | Menq =>
      Ok (SFloat (np_add (Fin 0.86)
                    (np_mul (Fin 0.1)
                       (np_log10 (_mean_stress o * KPA_TO_ATM)))))
  end.

(** [_nlp_name]: the label of the curves.  The formatted numbers of the
    label are left out; the attributes it reads are not. *)
Definition _nlp_name (cls : soil_class) (o : EmpiricalAttrs)
  : result string :=
  match cls with
  | Darendeli => Ok "Darendeli"%string
  | Menq =>
      _ <- getattr (_uniformity_coeff o) ;;
      _ <- getattr (_diam_mean o) ;;
      Ok "Menq"%string
  end.

(** *** The curves *)

(** [1 / (1 + (strains / strain_ref) ** curvature)]. *)
Definition modulus_reduction `{Numerics} (strain_ref curvature : npfloat)
  (strains : list Q) : list npfloat :=
  map (fun s =>
         np_div (Fin 1)
           (np_add (Fin 1)
              (np_pow (np_div (Fin s) strain_ref) curvature)))
    strains.

(** The Masing damping of the hyperbolic model, in percent. *)
Definition masing_a1 `{Numerics} (strain_ref : npfloat) (strains : list Q)
  : list npfloat :=
  map (fun s =>
         np_mul (Fin (100 / np_pi))
           (np_sub
              (np_div
                 (np_mul (Fin 4)
                    (np_sub (Fin s)
                       (np_mul strain_ref
                          (np_log_f
                             (np_div (np_add (Fin s) strain_ref)
                                strain_ref)))))
                 (np_div (Fin (s ^ 2)) (np_add (Fin s) strain_ref)))
              (Fin 2)))
    strains.

Definition square (x : npfloat) : npfloat := np_mul x x.
Definition cube (x : npfloat) : npfloat := np_mul (np_mul x x) x.

(** The correction of the Masing damping for the modified model. *)
Definition masing_corrected (curvature : npfloat) (a1 : list npfloat)
  : list npfloat :=
  let c1 := np_add (np_add (np_mul (Fin (-1.1143)) (square curvature))
                      (np_mul (Fin 1.8618) curvature)) (Fin 0.2523) in
  let c2 := np_sub (np_sub (np_mul (Fin 0.0805) (square curvature))
                      (np_mul (Fin 0.0710) curvature)) (Fin 0.0095) in
  let c3 := np_add (np_add (np_mul (Fin (-0.0005)) (square curvature))
                      (np_mul (Fin 0.0002) curvature)) (Fin 0.0003) in
  map (fun a =>
         np_add (np_add (np_mul c1 a) (np_mul c2 (square a)))
           (np_mul c3 (cube a)))
    a1.

(** The damping in percent, before the running maximum:
    [damping_min + damping_masing * masing_corr * mod_reduc ** 0.1]. *)
Definition computed_damping `{Numerics}
  (strain_ref curvature damping_min : npfloat) (num_cycles : Q)
  (strains : list Q) : list npfloat :=
  let mod_reduc := modulus_reduction strain_ref curvature strains in
  let damping_masing :=
    masing_corrected curvature (masing_a1 strain_ref strains) in
  let masing_corr :=
    np_sub (Fin 0.6329) (np_mul (Fin 0.00566) (np_log num_cycles)) in
  zip_with
    (fun dmas mr =>
       np_add damping_min
         (np_mul (np_mul dmas masing_corr) (np_pow mr (Fin 0.1))))
    damping_masing mod_reduc.

(** A [NonlinearProperty] as the empirical constructors build it: its
    values are what the computation gave, NaN and infinities included.  The
    interpolater is left to [as_property]; building it is taken to succeed,
    as in [_update]. *)
Record FloatCurve : Type := {
  fc_name : string;
  fc_strains : list Q;
  fc_values : list npfloat;
  fc_param : option string
}.

(** [NonlinearProperty(name, strains, values, param)] on computed values:
    the tag is checked as by the [param] setter. *)
Definition FloatCurve_init (nm : string) (strains : list Q)
  (values : list npfloat) (param : option string) : result FloatCurve :=
  let c := {| fc_name := nm; fc_strains := strains; fc_values := values;
              fc_param := param |} in
  match param with
  | Some tag =>
      if String.eqb tag ""%string then Ok c
      else if existsb (String.eqb tag) PARAMS then Ok c
      else Raise AssertionError
  | None => Ok c
  end.

Fixpoint finite_values (l : list npfloat) : option (list Q) :=
  match l with
  | [] => Some []
  | Fin q :: rest =>
      match finite_values rest with
      | Some qs => Some (q :: qs)
      | None => None
      end
  | _ :: _ => None
  end.

(** The curve as a [NonlinearProperty] of the embedding, which holds finite
    values: defined when every value is finite. *)
Definition as_property `{Numerics} (c : FloatCurve)
  : option NonlinearProperty :=
  match finite_values (fc_values c) with
  | Some vs =>
      Some (_update {| name := fc_name c; _strains := fc_strains c;
                       _values := vs; _interpolater := None;
                       _param := fc_param c |})
  | None => None
  end.

(** An empirical soil type: the attributes and the two curves. *)
Record EmpiricalSoilType : Type := {
  es_class : soil_class;
  es_attrs : EmpiricalAttrs;
  es_name : string;
  es_unit_wt : Q;
  es_mod_reduc : FloatCurve;
  es_damping : FloatCurve
}.

(** The soil type of the embedding, when both curves hold finite values. *)
Definition soil_type_of `{Numerics} (e : EmpiricalSoilType)
  : option SoilType :=
  match as_property (es_mod_reduc e), as_property (es_damping e) with
  | Some m, Some d =>
      Some (SoilType_init (es_name e) (es_unit_wt e) (PCurve m) (PCurve d))
  | _, _ => None
  end.

(** [damping_min] of an empirical soil type: the first value of its damping
    curve. *)
Definition es_damping_min (e : EmpiricalSoilType) : result npfloat :=
  match fc_values (es_damping e) with
  | v :: _ => Ok v
  | [] => Raise IndexError
  end.

(** Where the constructor gets to: the object is built, or a hook returned
    a complex number and the computation went on with complex arrays, where
    the embedding stops following it. *)
Inductive built (A : Type) : Type :=
| Built (a : A)
| OnComplex.

Arguments Built {A} a.
Arguments OnComplex {A}.

(** [DarendeliSoilType.__init__], run on an object of class [cls]. *)
Definition DarendeliSoilType_init `{Numerics} (cls : soil_class)
  (o : EmpiricalAttrs) (nm : string) (uw : Q) (num_cycles : Q)
  (strains : list Q) : result (built EmpiricalSoilType) :=
  strain_ref <- _calc_strain_ref cls o ;;
  curvature <- _calc_curvature cls o ;;
  match strain_ref, curvature with
  | SFloat sr, SFloat cv =>
      let mod_reduc := modulus_reduction sr cv strains in
      nm1 <- _nlp_name cls o ;;
      mr_curve <- FloatCurve_init nm1 strains mod_reduc
                    (Some "mod_reduc"%string) ;;
      damping_min <- _calc_damping_min cls o ;;
      match damping_min with
      | SFloat dmin =>
          let damping := computed_damping sr cv dmin num_cycles strains in
          let damping := maximum_accumulate damping in
          nm2 <- _nlp_name cls o ;;
          d_curve <- FloatCurve_init nm2 strains
                       (map (fun d => np_div d (Fin 100)) damping)
                       (Some "damping"%string) ;;
          Ok (Built {| es_class := cls; es_attrs := o; es_name := nm;
                       es_unit_wt := uw; es_mod_reduc := mr_curve;
                       es_damping := d_curve |})
      | SComplex => Ok OnComplex
      end
  | _, _ => Ok OnComplex
  end.

(** [DarendeliSoilType(...)]. *)
Definition DarendeliSoilType `{Numerics} (nm : string) (uw : Q)
  (plas_index ocr mean_stress freq num_cycles : Q) (strains : list Q)
  : result (built EmpiricalSoilType) :=
  DarendeliSoilType_init Darendeli
    {| _plas_index := plas_index; _ocr := ocr; _mean_stress := mean_stress;
       _freq := freq; _num_cycles := num_cycles;
       _uniformity_coeff := None; _diam_mean := None |}
    nm uw num_cycles strains.

Definition with_menq_attrs (e : EmpiricalSoilType)
  (uniformity_coeff diam_mean : Q) : EmpiricalSoilType :=
  let o := es_attrs e in
  {| es_class := es_class e;
     es_attrs :=
       {| _plas_index := _plas_index o; _ocr := _ocr o;
          _mean_stress := _mean_stress o; _freq := _freq o;
          _num_cycles := _num_cycles o;
          _uniformity_coeff := Some uniformity_coeff;
          _diam_mean := Some diam_mean |};
     es_name := es_name e; es_unit_wt := es_unit_wt e;
     es_mod_reduc := es_mod_reduc e; es_damping := es_damping e |}.

(** [MenqSoilType(...)]: the parent constructor runs first, on defaults for
    the plasticity index, the overconsolidation ratio and the frequency; the
    two attributes of the class are assigned after it returns. *)
Definition MenqSoilType `{Numerics} (nm : string) (uw : Q)
  (uniformity_coeff diam_mean mean_stress num_cycles : Q) (strains : list Q)
  : result (built EmpiricalSoilType) :=
  b <- DarendeliSoilType_init Menq
         {| _plas_index := 0; _ocr := 1; _mean_stress := mean_stress;
            _freq := 1; _num_cycles := num_cycles;
            _uniformity_coeff := None; _diam_mean := None |}
         nm uw num_cycles strains ;;
  match b with
  | Built e => Ok (Built (with_menq_attrs e uniformity_coeff diam_mean))
  | OnComplex => Ok OnComplex
  end.

(** ** Instances used to run the model on examples *)

(** Rational stand-ins for the imported numeric routines: the first Pade
    approximant of the logarithm, the first-order expansion of the power
    at base one, and piecewise-linear interpolation in the place of the
    spline.  They serve only to evaluate the model on concrete inputs. *)
Definition rational_numerics : Numerics := {|
  GRAVITY := 9.80665;
  KPA_TO_ATM := 1000 / 101325;
  np_pi := 3.14159265;
  ln := fun q => 2 * (q - 1) / (q + 1);
  log10 := fun q => 2 * (q - 1) / (q + 1) / 2.302585;
  pow := fun x y => 1 + y * (x - 1);
  cubic_spline := linear_interp
|}.

(** Modelled from the spec: the wave-field enumeration of the motion module,
    which is not among the sources; the spec describes it as a closed set of
    named modes for surface, within-column and incident evaluation points. *)
Inductive wave_field_mode : Type := outcrop | within | incoming_only.

Definition wave_field_of_name (nm : string) : option wave_field_mode :=
  if String.eqb nm "outcrop" then Some outcrop
  else if String.eqb nm "within" then Some within
  else if String.eqb nm "incoming_only" then Some incoming_only
  else None.

Definition motion_wave_fields : WaveFields := {|
  WaveField := wave_field_mode;
  wave_field_named := wave_field_of_name
|}.

(** The elastic layer of the spec's scenario: 18 kN/m3, 10 m, 200 m/s,
    constant damping 0.02. *)
Definition elastic_soil : SoilType :=
  SoilType_init "elastic" 18 PNone (PScalar 0.02).

Definition bare_layer (st : SoilType) (thick vel : Q) : Layer :=
  {| _profile := None; _soil_type := st; _thickness := thick;
     _initial_shear_vel := vel;
     _damping := IterativeValue_init PyNone;
     _shear_mod := IterativeValue_init PyNone;
     _strain := StrainIter (IterativeValue_init PyNone);
     _depth := 0; _vert_stress := 0 |}.

(** ** Predicates used in the statements *)

(** A modulus or damping attribute is strictly positive at a strain: a curve
    evaluates there to a finite positive number, a constant is positive. *)
Definition positive_at `{Numerics} (f : prop_field) (s : Q) : Prop :=
  match f with
  | PCurve c => exists m, NonlinearProperty_call c s = Ok (Fin m) /\ 0 < m
  | PScalar q => 0 < q
  | PNone => True
  end.

(** A float that is finite and zero. *)
Definition is_zero (x : npfloat) : Prop :=
  match x with
  | Fin q => q == 0
  | _ => False
  end.

(** Convergence tracking has not started: no previous value, no error. *)
Definition no_error_yet (l : Layer) : Prop :=
  previous (shear_mod l) = PyNone
  /\ previous (Layer_damping l) = PyNone
  /\ relative_error (shear_mod l) = Ok (Fin 0)
  /\ relative_error (Layer_damping l) = Ok (Fin 0)
  /\ max_error l = Ok (Fin 0).

(** The depth lies in the range of the layer, base excluded. *)
Definition contains (l : Layer) (d : Q) : Prop :=
  depth l <= d /\ d < depth_base l.

(** The total stress at the base of a layer. *)
Definition base_stress (l : Layer) : Q :=
  _vert_stress l + thickness l * Layer_unit_wt l.

(** A layer sits on the one above it: its depth is the base of that one and
    the stress at its top is the total stress at that base. *)
Definition sits_on (below above : Layer) : Prop :=
  depth below = depth_base above /\ _vert_stress below = base_stress above.

(** The chaining invariant of a column, from index [from] on. *)
Definition chained_from (from : nat) (ls : list Layer) : Prop :=
  forall i above below,
    (from <= i)%nat ->
    nth_error ls i = Some above ->
    nth_error ls (S i) = Some below ->
    sits_on below above.

Definition chained (ls : list Layer) : Prop := chained_from 0 ls.

(** Finite layers of 10 m and 15 m over a halfspace. *)
Definition example_layers : list Layer :=
  [bare_layer elastic_soil 10 200; bare_layer elastic_soil 15 400;
   bare_layer elastic_soil 0 760].

(** A two-point modulus-reduction curve and a two-point damping curve. *)
Definition example_mod_reduc : NonlinearProperty :=
  @_update rational_numerics
    {| name := "G/Gmax"; _strains := [0.0001; 0.01]; _values := [1; 0.5];
       _interpolater := None; _param := Some "mod_reduc"%string |}.

Definition example_damping : NonlinearProperty :=
  @_update rational_numerics
    {| name := "D"; _strains := [0.0001; 0.01]; _values := [0.01; 0.1];
       _interpolater := None; _param := Some "damping"%string |}.

(** A curve given its strains in descending order. *)
Definition descending_curve : NonlinearProperty :=
  @_update rational_numerics
    {| name := "u"; _strains := [0.01; 0.0001]; _values := [0.5; 1];
       _interpolater := None; _param := None |}.

Definition example_nonlinear_soil : SoilType :=
  SoilType_init "clay" 18 (PCurve example_mod_reduc)
    (PCurve example_damping).

(** A sequence of numbers that never decreases from an index to a later
    one. *)
Definition nondecreasing (l : list Q) : Prop :=
  forall j k vj vk,
    (j < k)%nat ->
    nth_error l j = Some vj ->
    nth_error l k = Some vk ->
    vj <= vk.


(** The elastic layer of the scenario, as [Layer] builds it. *)
Definition elastic_layer : Layer :=
  match @Layer_init rational_numerics elastic_soil 10 200 with
  | Ok l => l
  | Raise _ => bare_layer elastic_soil 10 200
  end.

(** A linear soil type left at the default unit weight of zero, and a layer
    of it. *)
Definition weightless_soil : SoilType :=
  SoilType_init "default" 0 PNone (PScalar 0.05).

Definition weightless_layer : Layer :=
  match @Layer_init rational_numerics weightless_soil 10 200 with
  | Ok l => l
  | Raise _ => bare_layer weightless_soil 10 200
  end.

(** A curve given two strains and one value, a soil type that uses it for
    both attributes, and a layer of it. *)
Definition unbuilt_curve : NonlinearProperty :=
  @_update rational_numerics
    {| name := "short"; _strains := [0.001; 0.01]; _values := [0.05];
       _interpolater := None; _param := None |}.

Definition unbuilt_soil : SoilType :=
  SoilType_init "short" 18 (PCurve unbuilt_curve) (PCurve unbuilt_curve).

Definition unbuilt_layer : Layer :=
  match @Layer_init rational_numerics unbuilt_soil 10 200 with
  | Ok l => l
  | Raise _ => bare_layer unbuilt_soil 10 200
  end.

(** An empirical soil type with empty curves, the value of the examples
    below if their constructor were to fail. *)
Definition blank_empirical : EmpiricalSoilType :=
  let blank := {| fc_name := ""; fc_strains := []; fc_values := [];
                  fc_param := None |} in
  {| es_class := Darendeli;
     es_attrs := {| _plas_index := 0; _ocr := 1; _mean_stress := 101.3;
                    _freq := 1; _num_cycles := 10;
                    _uniformity_coeff := None; _diam_mean := None |};
     es_name := ""; es_unit_wt := 0;
     es_mod_reduc := blank; es_damping := blank |}.

Definition built_or_blank (r : result (built EmpiricalSoilType))
  : EmpiricalSoilType :=
  match r with
  | Ok (Built e) => e
  | _ => blank_empirical
  end.

(** A Darendeli clay of plasticity index 0 over a three-point grid. *)
Definition example_darendeli : EmpiricalSoilType :=
  built_or_blank
    (@DarendeliSoilType rational_numerics "clay" 18 0 1 101.3 1 10
       [0.0001; 0.001; 0.01]).

(** The same clay over a grid that starts at zero strain. *)
Definition zero_strain_darendeli : EmpiricalSoilType :=
  built_or_blank
    (@DarendeliSoilType rational_numerics "clay" 18 0 1 101.3 1 10
       [0; 0.001; 0.01]).




(** The soil type of the embedding for [example_darendeli]. *)
Definition soil_or_elastic (o : option SoilType) : SoilType :=
  match o with
  | Some st => st
  | None => elastic_soil
  end.

Definition example_darendeli_soil : SoilType :=
  soil_or_elastic (@soil_type_of rational_numerics example_darendeli).

(** [stored] is the running maximum of [raw]: each element is one of the
    elements of [raw] up to its index, and is NaN or at least each of
    them. *)
Definition running_maximum_of (raw stored : list npfloat) : Prop :=
  length stored = length raw
  /\ forall k v,
       nth_error stored k = Some v ->
       (exists i, (i <= k)%nat /\ nth_error raw i = Some v)
       /\ (forall i r,
             (i <= k)%nat -> nth_error raw i = Some r ->
             v = NaN \/ np_leb r v = true).

(** A sequence of floats in which a later element is NaN or at least each
    earlier one. *)
Definition nondecreasing_or_nan (l : list npfloat) : Prop :=
  forall j k vj vk,
    (j < k)%nat ->
    nth_error l j = Some vj ->
    nth_error l k = Some vk ->
    vk = NaN \/ np_leb vj vk = true.

(** Two assignments of the strain [s] to a fresh layer of soil [st]. *)
Definition strained_twice (st : SoilType) (s : Q) : result Layer :=
  l <- @Layer_init rational_numerics st 10 200 ;;
  l1 <- @set_strain rational_numerics l s ;;
  @set_strain rational_numerics l1 s.

(** A nonlinear soil type without damping: the damping curve is zero at
    both strains; and a layer of it after two assignments of the strain
    0.001. *)
Definition undamped_curve : NonlinearProperty :=
  @_update rational_numerics
    {| name := "D"; _strains := [0.0001; 0.01]; _values := [0; 0];
       _interpolater := None; _param := Some "damping"%string |}.

Definition undamped_soil : SoilType :=
  SoilType_init "undamped" 18 (PCurve example_mod_reduc)
    (PCurve undamped_curve).

Definition undamped_layer_twice : Layer :=
  match (l <- @Layer_init rational_numerics undamped_soil 10 200 ;;
         l1 <- @set_strain rational_numerics l 0.001 ;;
         @set_strain rational_numerics l1 0.001) with
  | Ok l2 => l2
  | Raise _ => bare_layer undamped_soil 10 200
  end.

(** A curve with no strain and no value, and a soil type damped by it. *)
Definition empty_curve : NonlinearProperty :=
  {| name := "empty"; _strains := []; _values := [];
     _interpolater := None; _param := None |}.

(** The sum of a list of numbers. *)
Fixpoint Qsum (l : list Q) : Q :=
  match l with
  | [] => 0
  | x :: rest => x + Qsum rest
  end.

(** The weight a layer adds: thickness times unit weight. *)
Definition layer_weight (l : Layer) : Q := thickness l * Layer_unit_wt l.

(** The column of 10 m and 15 m over a halfspace, as [Profile] builds it
    with the water table at [wt]. *)
Definition example_profile (wt : Q) : Profile :=
  match @Profile_init rational_numerics example_layers wt with
  | Ok p => p
  | Raise _ => {| data := []; wt_depth := wt |}
  end.

(** The state the [thickness] setter leaves behind in the column of 10 m
    and 15 m over a halfspace: the first layer cut to 5 m, the layers below
    where they were. *)
Definition example_stale_profile : Profile :=
  match @Profile_init rational_numerics example_layers 0 with
  | Ok p => state (@set_thickness rational_numerics p 0 5)
  | Raise _ => {| data := []; wt_depth := 0 |}
  end.

(** ** Comparison lemmas *)

Lemma Qltb_lt (a b : Q) : Qltb a b = true <-> a < b.
Proof.
  unfold Qltb. rewrite negb_true_iff.
  split; intro Hlt.
  - apply Qnot_le_lt. intro Hle. apply Qle_bool_iff in Hle. congruence.
  - destruct (Qle_bool b a) eqn:E; [|reflexivity].
    apply Qle_bool_iff in E. lra.
Qed.

Lemma Qltb_ge (a b : Q) : Qltb a b = false <-> b <= a.
Proof.
  unfold Qltb. rewrite negb_false_iff. apply Qle_bool_iff.
Qed.

Lemma Qeqb_eq (a b : Q) : Qeqb a b = true <-> a == b.
Proof. unfold Qeqb. apply Qeq_bool_iff. Qed.

Lemma Qeqb_neq (a b : Q) : Qeqb a b = false <-> ~ a == b.
Proof.
  unfold Qeqb. split; intro Hn.
  - intro Heq. apply Qeq_bool_iff in Heq. congruence.
  - destruct (Qeq_bool a b) eqn:E; [|reflexivity].
    apply Qeq_bool_iff in E. contradiction.
Qed.

Lemma Qle_bool_false (a b : Q) : Qle_bool a b = false <-> b < a.
Proof.
  split; intro Hf.
  - apply Qnot_le_lt. intro Hle. apply Qle_bool_iff in Hle. congruence.
  - destruct (Qle_bool a b) eqn:E; [|reflexivity].
    apply Qle_bool_iff in E. lra.
Qed.

Lemma Qmax_zero_l (x : Q) : x <= 0 -> Qmax x 0 == 0.
Proof. intro Hx. apply Q.max_r. exact Hx. Qed.

Lemma Qmax_zero_r (x : Q) : 0 <= x -> Qmax x 0 == x.
Proof. intro Hx. apply Q.max_l. exact Hx. Qed.

(** ** Pore pressure and vertical stress *)

Section Stress.
Context `{N : Numerics}.

(** C7: the pore pressure at depth [d] is the gravitational constant times
    [max(d - wt_depth, 0)]; it vanishes at and above the water table, and
    below it grows linearly in [d] with slope [GRAVITY]. *)
Theorem pore_pressure_hydrostatic (p : Profile) (d : Q) :
  pore_pressure p d = GRAVITY * Qmax (d - wt_depth p) 0
  /\ (d <= wt_depth p -> pore_pressure p d == 0)
  /\ (wt_depth p < d -> pore_pressure p d == GRAVITY * (d - wt_depth p))
  /\ (forall d', wt_depth p < d -> wt_depth p < d' ->
        pore_pressure p d' - pore_pressure p d == GRAVITY * (d' - d)).
Proof.
  unfold pore_pressure, pore_pressure_at.
  split; [reflexivity|].
  split; [|split].
  - intro Hd. rewrite Qmax_zero_l by lra. ring.
  - intro Hd. rewrite Qmax_zero_r by lra. reflexivity.
  - intros d' Hd Hd'. rewrite !Qmax_zero_r by lra. ring.
Qed.

(** C8 (amended): [vert_stress] fails on its assertion whenever the offset
    exceeds the thickness; otherwise the total stress is the stress at the
    top plus offset times unit weight, and the effective stress is that
    minus the pore pressure of the owning profile, provided the layer has
    one; a layer that belongs to no profile raises [AttributeError]. *)
Theorem vert_stress_cases (l : Layer) (depth_within : Q) :
  (thickness l < depth_within ->
     forall effective,
       vert_stress l depth_within effective = Raise AssertionError)
  /\ (depth_within <= thickness l ->
        vert_stress l depth_within false
        = Ok (_vert_stress l + depth_within * Layer_unit_wt l))
  /\ (depth_within <= thickness l ->
        forall r, _profile l = Some r ->
          vert_stress l depth_within true
          = Ok (_vert_stress l + depth_within * Layer_unit_wt l
                - pore_pressure_at (ref_wt_depth r)
                    (depth l + depth_within)))
  /\ (depth_within <= thickness l -> _profile l = None ->
        vert_stress l depth_within true = Raise AttributeError).
Proof.
  unfold vert_stress.
  repeat split.
  - intros Hgt effective.
    apply Qle_bool_false in Hgt. rewrite Hgt. reflexivity.
  - intro Hle. apply Qle_bool_iff in Hle. rewrite Hle. reflexivity.
  - intros Hle r Hr. apply Qle_bool_iff in Hle. rewrite Hle, Hr. reflexivity.
  - intros Hle Hr. apply Qle_bool_iff in Hle. rewrite Hle, Hr. reflexivity.
Qed.

End Stress.

(** C7, at the water table of a profile with no layers: depth 3 against a
    water table at 5, and depth 7 against the same. *)
Lemma pore_pressure_hydrostatic_witness :
  @pore_pressure rational_numerics {| data := []; wt_depth := 5 |} 3 == 0
  /\ @pore_pressure rational_numerics {| data := []; wt_depth := 5 |} 7
     == 9.80665 * (7 - 5).
Proof.
  split.
  - apply (proj1 (proj2 (@pore_pressure_hydrostatic rational_numerics
                           {| data := []; wt_depth := 5 |} 3))).
    simpl. lra.
  - apply (proj1 (proj2 (proj2 (@pore_pressure_hydrostatic rational_numerics
                           {| data := []; wt_depth := 5 |} 7)))).
    simpl. lra.
Defined.

(** C8, counterexample: a layer that was just built belongs to no profile;
    its effective stress at 5 m, within its 10 m, raises [AttributeError]. *)
Lemma vert_stress_detached_layer :
  Qle_bool 5 (thickness (bare_layer elastic_soil 10 200)) = true
  /\ @Layer_init rational_numerics elastic_soil 10 200
     = Ok (with_iteration (bare_layer elastic_soil 10 200)
             (IterativeValue_init
                (PyNum (@initial_shear_mod rational_numerics
                          (bare_layer elastic_soil 10 200))))
             (IterativeValue_init (PyNum 0.02))
             (StrainIter (IterativeValue_init PyNone)))
  /\ @vert_stress rational_numerics
       (with_iteration (bare_layer elastic_soil 10 200)
             (IterativeValue_init
                (PyNum (@initial_shear_mod rational_numerics
                          (bare_layer elastic_soil 10 200))))
             (IterativeValue_init (PyNum 0.02))
             (StrainIter (IterativeValue_init PyNone))) 5 true
     = Raise AttributeError.
Proof. repeat split. Qed.

(** C8, on a layer attached to a profile with the water table at 2 m: the
    assertion, the total and the effective stress. *)
Lemma vert_stress_cases_witness :
  let r := {| ref_wt_depth := 2 |} in
  let l := with_position (bare_layer elastic_soil 10 200) r 0 0 in
  @vert_stress rational_numerics l 11 true = Raise AssertionError
  /\ @vert_stress rational_numerics l 5 false
     = Ok (_vert_stress l + 5 * Layer_unit_wt l)
  /\ @vert_stress rational_numerics l 5 true
     = Ok (_vert_stress l + 5 * Layer_unit_wt l
           - @pore_pressure_at rational_numerics (ref_wt_depth r)
               (depth l + 5)).
Proof.
  intros r l.
  pose proof (@vert_stress_cases rational_numerics l 11) as H11.
  pose proof (@vert_stress_cases rational_numerics l 5) as H5.
  assert (Hle : 5 <= thickness l) by (vm_compute; discriminate).
  assert (Hgt : thickness l < 11) by (vm_compute; reflexivity).
  split; [|split].
  - exact (proj1 H11 Hgt true).
  - exact (proj1 (proj2 H5) Hle).
  - exact (proj1 (proj2 (proj2 H5)) Hle r eq_refl).
Defined.

(** ** Convergence tracking *)

Lemma relative_error_same_py (q : Q) :
  0 < q ->
  exists e, relative_error {| _value := PyNum q; _previous := PyNum q |}
            = Ok (Fin e) /\ e == 0.
Proof.
  intro Hq.
  assert (Hz : Qeqb q 0 = false) by (apply Qeqb_neq; lra).
  unfold relative_error, relative_error_body, py_sub, py_div, py_binop.
  cbn. rewrite Hz. cbn.
  eexists. split; [reflexivity|].
  field. lra.
Qed.

Lemma relative_error_same_np (q : Q) :
  0 < q ->
  exists e, relative_error {| _value := NpNum (Fin q);
                              _previous := NpNum (Fin q) |}
            = Ok (Fin e) /\ e == 0.
Proof.
  intro Hq.
  assert (Hz : Qeqb q 0 = false) by (apply Qeqb_neq; lra).
  unfold relative_error, relative_error_body, py_sub, py_div, py_binop.
  cbn. rewrite Hz. cbn.
  eexists. split; [reflexivity|].
  field. lra.
Qed.

Lemma py_max_zero (a b : npfloat) :
  is_zero a -> is_zero b -> is_zero (py_max a b).
Proof.
  intros Ha Hb. unfold py_max. destruct (np_gtb b a); assumption.
Qed.

Section Iteration.
Context `{N : Numerics}.

Lemma call_or_not_curve (f : prop_field) (s : Q) (fallback : pyval) :
  is_curve f = false -> call_or f s fallback = Ok fallback.
Proof. destruct f; [reflexivity | reflexivity | discriminate]. Qed.

Lemma is_nonlinear_false (st : SoilType) :
  is_nonlinear st = false ->
  is_curve (mod_reduc st) = false /\ is_curve (damping st) = false.
Proof.
  unfold is_nonlinear. cbn. intro Hn.
  rewrite orb_false_r in Hn. apply orb_false_iff in Hn. exact Hn.
Qed.

(** C6: on a layer whose soil type is linear, assigning a strain succeeds,
    leaves the shear modulus equal to the initial shear modulus (a reduction
    of exactly one) and sets the damping to the soil type's [damping]. *)
Theorem linear_soil_strain (l : Layer) (strain : Q) :
  is_nonlinear (soil_type l) = false ->
  exists l',
    set_strain l strain = Ok l'
    /\ (exists q, value (shear_mod l') = PyNum q
                  /\ q == initial_shear_mod l)
    /\ value (Layer_damping l') = field_value (damping (soil_type l))
    /\ soil_type l' = soil_type l
    /\ _strain l' = StrainRaw (PyNum strain).
Proof.
  intro Hlin.
  destruct (is_nonlinear_false _ Hlin) as [Hm Hd].
  unfold set_strain. rewrite Hlin.
  rewrite (call_or_not_curve _ _ _ Hm), (call_or_not_curve _ _ _ Hd).
  cbn. eexists. split; [reflexivity|].
  cbn. repeat split.
  exists (initial_shear_mod l * 1). split; [reflexivity | ring].
Qed.

Lemma reset_no_error (l l' : Layer) :
  Layer_reset l = Ok l' -> no_error_yet l'.
Proof.
  unfold Layer_reset. intro Hr.
  destruct (damping_min (soil_type l)) as [dmin|e]; [|discriminate].
  cbn in Hr. injection Hr as <-.
  unfold no_error_yet, max_error. cbn. repeat split.
Qed.

(** C9: a layer that was just constructed, and a layer after [reset], hold
    no previous value in either iterative value; both relative errors and
    [max_error] are zero. *)
Theorem fresh_layer_no_error :
  (forall st thick vel l, Layer_init st thick vel = Ok l -> no_error_yet l)
  /\ (forall l l', Layer_reset l = Ok l' -> no_error_yet l').
Proof.
  split.
  - intros st thick vel l Hi. unfold Layer_init in Hi.
    exact (reset_no_error _ _ Hi).
  - exact reset_no_error.
Qed.

(** What the strain setter stores as modulus and as damping. *)
Lemma set_strain_nonlinear (l : Layer) (s : Q) (iv : IterativeValue) :
  is_nonlinear (soil_type l) = true ->
  _strain l = StrainIter iv ->
  positive_at (mod_reduc (soil_type l)) s ->
  positive_at (damping (soil_type l)) s ->
  0 < initial_shear_mod l ->
  exists vm vd,
    set_strain l s
    = Ok (with_iteration l (set_value (_shear_mod l) vm)
            (set_value (_damping l) vd)
            (StrainIter (set_value iv (PyNum s))))
    /\ (exists q, (vm = PyNum q \/ vm = NpNum (Fin q)) /\ 0 < q)
    /\ (vd = PyNone
        \/ exists q, (vd = PyNum q \/ vd = NpNum (Fin q)) /\ 0 < q).
Proof.
  intros Hnl Hs Hm Hd Hpos.
  unfold set_strain. rewrite Hnl, Hs. cbn [bind].
  unfold call_or, call_field.
  assert (Hmod : exists vm,
            (mr <- match match mod_reduc (soil_type l) with
                         | PCurve c =>
                             x <- NonlinearProperty_call c s ;; Ok (NpNum x)
                         | _ => Raise TypeError
                         end with
                   | Raise TypeError => Ok (PyNum 1)
                   | r => r
                   end ;;
             py_mul (PyNum (initial_shear_mod l)) mr) = Ok vm
            /\ exists q, (vm = PyNum q \/ vm = NpNum (Fin q)) /\ 0 < q).
  { destruct (mod_reduc (soil_type l)) as [|qm|cm]; cbn in Hm |- *.
    - eexists. split; [reflexivity|]. eexists. split; [left; reflexivity|].
      lra.
    - eexists. split; [reflexivity|]. eexists. split; [left; reflexivity|].
      lra.
    - destruct Hm as [m [Hcm Hmpos]]. rewrite Hcm. cbn.
      eexists. split; [reflexivity|]. eexists.
      split; [right; reflexivity|]. nra. }
  assert (Hdam : exists vd,
            match match damping (soil_type l) with
                  | PCurve c =>
                      x <- NonlinearProperty_call c s ;; Ok (NpNum x)
                  | _ => Raise TypeError
                  end with
            | Raise TypeError => Ok (field_value (damping (soil_type l)))
            | r => r
            end = Ok vd
            /\ (vd = PyNone
                \/ exists q, (vd = PyNum q \/ vd = NpNum (Fin q)) /\ 0 < q)).
  { destruct (damping (soil_type l)) as [|qd|cd]; cbn in Hd |- *.
    - eexists. split; [reflexivity|]. left. reflexivity.
    - eexists. split; [reflexivity|]. right. eexists.
      split; [left; reflexivity|]. exact Hd.
    - destruct Hd as [d [Hcd Hdpos]]. rewrite Hcd. cbn.
      eexists. split; [reflexivity|]. right. eexists.
      split; [right; reflexivity|]. exact Hdpos. }
  destruct Hmod as [vm [Evm Hvm]]. destruct Hdam as [vd [Evd Hvd]].
  exists vm, vd. split; [|split; assumption].
  revert Evm.
  destruct (match match mod_reduc (soil_type l) with
                  | PCurve c =>
                      x <- NonlinearProperty_call c s ;; Ok (NpNum x)
                  | _ => Raise TypeError
                  end with
            | Raise TypeError => Ok (PyNum 1)
            | r => r
            end) as [mr|e]; cbn [bind]; [|discriminate].
  intros ->. cbn [bind]. rewrite Evd. reflexivity.
Qed.

Lemma relative_error_repeated (w : pyval) (v : pyval) :
  (v = PyNone \/ exists q, (v = PyNum q \/ v = NpNum (Fin q)) /\ 0 < q) ->
  exists e, relative_error (set_value {| _value := v; _previous := w |} v)
            = Ok e /\ is_zero e.
Proof.
  intros [-> | [q [[-> | ->] Hq]]]; unfold set_value; cbn [_value].
  - exists (Fin 0). split; [reflexivity | cbn; reflexivity].
  - destruct (relative_error_same_py q Hq) as [e [He Hz]].
    exists (Fin e). split; assumption.
  - destruct (relative_error_same_np q Hq) as [e [He Hz]].
    exists (Fin e). split; assumption.
Qed.

(** C10 (amended): on a layer with a nonlinear soil type (its strain tracked
    by an [IterativeValue], as the constructor leaves it), a positive
    initial shear modulus, and a modulus reduction and a damping that
    evaluate to finite, strictly positive numbers at the strain, assigning
    the same strain twice in succession succeeds both times and leaves
    [max_error] at zero: each iterative value then holds a previous value
    equal to its value. *)
Theorem repeated_strain_no_error (l : Layer) (s : Q) (iv : IterativeValue) :
  is_nonlinear (soil_type l) = true ->
  _strain l = StrainIter iv ->
  0 < initial_shear_mod l ->
  positive_at (mod_reduc (soil_type l)) s ->
  positive_at (damping (soil_type l)) s ->
  exists l1 l2 e,
    set_strain l s = Ok l1
    /\ set_strain l1 s = Ok l2
    /\ previous (shear_mod l2) = value (shear_mod l2)
    /\ previous (Layer_damping l2) = value (Layer_damping l2)
    /\ max_error l2 = Ok e
    /\ is_zero e.
Proof.
  intros Hnl Hs Hpos Hm Hd.
  destruct (set_strain_nonlinear l s iv Hnl Hs Hm Hd Hpos)
    as [vm [vd [H1 [Hvm Hvd]]]].
  set (l1 := with_iteration l (set_value (_shear_mod l) vm)
               (set_value (_damping l) vd)
               (StrainIter (set_value iv (PyNum s)))) in *.
  destruct (set_strain_nonlinear l1 s (set_value iv (PyNum s)))
    as [vm' [vd' [H2 _]]]; try assumption; try reflexivity.
  assert (Hsame : set_strain l1 s
                  = Ok (with_iteration l1 (set_value (_shear_mod l1) vm)
                          (set_value (_damping l1) vd)
                          (StrainIter
                             (set_value (set_value iv (PyNum s))
                                (PyNum s))))).
  { clear H2 vm' vd'. revert H1. unfold set_strain.
    rewrite Hnl, Hs.
    change (soil_type l1) with (soil_type l).
    change (initial_shear_mod l1) with (initial_shear_mod l).
    rewrite Hnl. cbn [_strain l1 with_iteration bind].
    destruct (call_or (mod_reduc (soil_type l)) s (PyNum 1)) as [mr|];
      [|discriminate]. cbn [bind].
    destruct (py_mul (PyNum (initial_shear_mod l)) mr) as [sm|];
      [|discriminate]. cbn [bind].
    destruct (call_or (damping (soil_type l)) s
                (field_value (damping (soil_type l)))) as [dm|];
      [|discriminate]. cbn [bind].
    intro Heq. injection Heq as -> ->. reflexivity. }
  destruct (relative_error_repeated (_value (_shear_mod l)) vm
              (or_intror Hvm)) as [ea [Hea Hza]].
  destruct (relative_error_repeated (_value (_damping l)) vd Hvd)
    as [eb [Heb Hzb]].
  eexists l1, _, (py_max ea eb).
  split; [exact H1|]. split; [exact Hsame|].
  split; [reflexivity|]. split; [reflexivity|].
  split.
  - unfold max_error, shear_mod, Layer_damping. cbn [_shear_mod _damping
      with_iteration l1].
    unfold set_value at 2 4. cbn [_value].
    fold (set_value {| _value := vm; _previous := _value (_shear_mod l) |} vm).
    fold (set_value {| _value := vd; _previous := _value (_damping l) |} vd).
    rewrite Hea, Heb. reflexivity.
  - apply py_max_zero; assumption.
Qed.

End Iteration.

(** C6, on the elastic layer of the scenario at a strain of 0.001. *)
Lemma linear_soil_strain_witness :
  exists l',
    @set_strain rational_numerics (bare_layer elastic_soil 10 200) 0.001
    = Ok l'
    /\ (exists q, value (shear_mod l') = PyNum q
                  /\ q == @initial_shear_mod rational_numerics
                            (bare_layer elastic_soil 10 200))
    /\ value (Layer_damping l')
       = field_value (damping (soil_type (bare_layer elastic_soil 10 200)))
    /\ soil_type l' = soil_type (bare_layer elastic_soil 10 200)
    /\ _strain l' = StrainRaw (PyNum 0.001).
Proof.
  exact (@linear_soil_strain rational_numerics
           (bare_layer elastic_soil 10 200) 0.001 eq_refl).
Defined.

(** C9, on the elastic layer of the scenario. *)
Lemma fresh_layer_no_error_witness :
  exists l, @Layer_init rational_numerics elastic_soil 10 200 = Ok l
            /\ no_error_yet l.
Proof.
  eexists. split; [reflexivity|].
  apply (proj1 (@fresh_layer_no_error rational_numerics) elastic_soil 10 200).
  reflexivity.
Defined.

(** C10, on a layer of the two-curve soil at a strain of 0.001. *)
Lemma repeated_strain_no_error_witness :
  let l := with_iteration (bare_layer example_nonlinear_soil 10 200)
             (IterativeValue_init
                (PyNum (@initial_shear_mod rational_numerics
                          (bare_layer example_nonlinear_soil 10 200))))
             (IterativeValue_init (NpNum (Fin 0.01)))
             (StrainIter (IterativeValue_init PyNone)) in
  @Layer_init rational_numerics example_nonlinear_soil 10 200 = Ok l
  /\ exists l1 l2 e,
       @set_strain rational_numerics l 0.001 = Ok l1
       /\ @set_strain rational_numerics l1 0.001 = Ok l2
       /\ previous (shear_mod l2) = value (shear_mod l2)
       /\ previous (Layer_damping l2) = value (Layer_damping l2)
       /\ max_error l2 = Ok e
       /\ is_zero e.
Proof.
  intro l. split; [reflexivity|].
  apply (@repeated_strain_no_error rational_numerics l 0.001
           (IterativeValue_init PyNone)).
  - reflexivity.
  - reflexivity.
  - vm_compute. reflexivity.
  - cbn. eexists. split; [vm_compute; reflexivity | vm_compute; reflexivity].
  - cbn. eexists. split; [vm_compute; reflexivity | vm_compute; reflexivity].
Defined.

(** C10, counterexample: strictly positive stored curve values are not
    enough.  The two-curve soil is nonlinear, its stored values are all
    positive and the initial shear modulus of its layer is positive; yet
    after the strain -1 is assigned twice both curves have evaluated to NaN
    and [max_error] is NaN, not zero.  And the soil whose curve holds two
    strains and the single positive value 0.05 has no interpolater: after a
    strain is assigned twice the damping holds the curve itself, and
    [max_error] raises [TypeError]. *)
Lemma repeated_strain_not_zero :
  is_nonlinear example_nonlinear_soil = true
  /\ Forall (fun v => 0 < v) (_values example_mod_reduc)
  /\ Forall (fun v => 0 < v) (_values example_damping)
  /\ (exists l,
        @Layer_init rational_numerics example_nonlinear_soil 10 200 = Ok l
        /\ 0 < @initial_shear_mod rational_numerics l)
  /\ (exists l2,
        strained_twice example_nonlinear_soil (-1) = Ok l2
        /\ max_error l2 = Ok NaN)
  /\ is_nonlinear unbuilt_soil = true
  /\ Forall (fun v => 0 < v) (_values unbuilt_curve)
  /\ (exists l,
        @Layer_init rational_numerics unbuilt_soil 10 200 = Ok l
        /\ 0 < @initial_shear_mod rational_numerics l)
  /\ (exists l2,
        strained_twice unbuilt_soil 0.005 = Ok l2
        /\ max_error l2 = Raise TypeError).
Proof.
  split; [reflexivity|].
  split; [repeat constructor|].
  split; [repeat constructor|].
  split; [eexists; split; [reflexivity | vm_compute; reflexivity]|].
  split; [eexists; split; [vm_compute; reflexivity | reflexivity]|].
  split; [reflexivity|].
  split; [repeat constructor|].
  split; [eexists; split; [reflexivity | vm_compute; reflexivity]|].
  eexists; split; [vm_compute; reflexivity | reflexivity].
Qed.

(** C2, at the failing inputs.  With numpy values the division by a zero
    current value does not raise: a zero previous value gives NaN, and in an
    array the infinity of one element is lost under the maximum, leaving
    the finite 50 percent of the other; with Python numbers the same zero
    value is reported as an infinite error. *)
Theorem relative_error_zero_value :
  relative_error {| _value := NpNum (Fin 0); _previous := NpNum (Fin 0) |}
  = Ok NaN
  /\ relative_error {| _value := NpArr [Fin 0; Fin 2];
                       _previous := NpArr [Fin (-1); Fin 3] |}
     = Ok (Fin (100 # 2))
  /\ relative_error {| _value := NpNum (Fin 0);
                       _previous := NpNum (Fin (-3)) |}
     = Ok NInf
  /\ relative_error {| _value := PyNum 0; _previous := PyNum 0 |} = Ok PInf.
Proof. repeat split. Qed.

(** ** The column: depths and stresses *)

Lemma Qle_bool_refl (a : Q) : Qle_bool a a = true.
Proof. apply Qle_bool_iff. lra. Qed.

Section Column.
Context `{N : Numerics}.

Lemma vert_stress_base (l : Layer) :
  vert_stress l (thickness l) false = Ok (base_stress l).
Proof. unfold vert_stress. rewrite Qle_bool_refl. reflexivity. Qed.

(** The loop of [update_layers] never fails: it returns as many layers, the
    first at the given depth and stress, each next one on the one above. *)
Lemma update_from_chained (r : ProfileRef) (ls : list Layer) :
  forall d vs,
  exists ls',
    update_from r d vs ls = Ok ls'
    /\ length ls' = length ls
    /\ map thickness ls' = map thickness ls
    /\ map soil_type ls' = map soil_type ls
    /\ Forall (fun l => _profile l = Some r) ls'
    /\ (forall l, hd_error ls' = Some l -> depth l = d /\ _vert_stress l = vs)
    /\ chained ls'.
Proof.
  induction ls as [|l rest IH]; intros d vs.
  - exists []. cbn.
    split; [reflexivity|]. split; [reflexivity|].
    split; [reflexivity|]. split; [reflexivity|].
    split; [constructor|].
    split.
    + intros l0 Hl0. discriminate.
    + intros i a b _ Ha. destruct i; discriminate.
  - destruct rest as [|l2 rest'].
    + exists [with_position l r d vs]. cbn.
      split; [reflexivity|]. split; [reflexivity|].
      split; [reflexivity|]. split; [reflexivity|].
      split; [constructor; [reflexivity | constructor]|].
      split.
      * intros l0 Hl0. injection Hl0 as <-. split; reflexivity.
      * intros i a b _ Ha Hb. destruct i as [|i]; cbn in Hb;
          [discriminate | destruct i; discriminate].
    + set (l' := with_position l r d vs).
      destruct (IH (depth_base l') (base_stress l'))
        as [ls' [Hu [Hlen [Hth [Hst [Hpr [Hhd Hch]]]]]]].
      exists (l' :: ls').
      change (update_from r d vs (l :: l2 :: rest'))
        with (vs' <- vert_stress l' (thickness l') false ;;
              rest0 <- update_from r (depth_base l') vs' (l2 :: rest') ;;
              Ok (l' :: rest0)).
      rewrite vert_stress_base. cbn [bind]. rewrite Hu. cbn [bind].
      split; [reflexivity|].
      split; [cbn; rewrite Hlen; reflexivity|].
      split; [cbn [map]; rewrite Hth; reflexivity|].
      split; [cbn [map]; rewrite Hst; reflexivity|].
      split; [constructor; [reflexivity | exact Hpr]|].
      split.
      * intros l0 Hl0. injection Hl0 as <-. split; reflexivity.
      * intros i a b _ Ha Hb. destruct i as [|i].
        -- cbn in Ha, Hb. injection Ha as <-.
           destruct ls' as [|b0 ls'']; [discriminate|].
           cbn in Hb. injection Hb as <-.
           destruct (Hhd b0 eq_refl) as [Hd0 Hv0].
           split; assumption.
        -- cbn in Ha, Hb. apply (Hch i a b); [lia | assumption | assumption].
Qed.

(** [update_layers()] computes the whole column from the surface. *)
Lemma update_layers_zero (p : Profile) :
  exists p',
    update_layers p 0 = Ok p'
    /\ wt_depth p' = wt_depth p
    /\ map thickness (data p') = map thickness (data p)
    /\ map soil_type (data p') = map soil_type (data p)
    /\ Forall (fun l => _profile l = Some (profile_ref p)) (data p')
    /\ (forall l, hd_error (data p') = Some l ->
          depth l = 0 /\ _vert_stress l = 0)
    /\ chained (data p').
Proof.
  destruct (update_from_chained (profile_ref p) (data p) 0 0)
    as [ls' [Hu [Hlen [Hth [Hst [Hpr [Hhd Hch]]]]]]].
  exists {| data := ls'; wt_depth := wt_depth p |}.
  unfold update_layers. cbn [Nat.ltb Nat.leb bind fst snd skipn firstn app].
  rewrite Hu. cbn [bind data wt_depth].
  repeat (split; [first [reflexivity | assumption]|]). exact Hch.
Qed.

Lemma nth_error_prefix (ls tl : list Layer) (k j : nat) :
  (j < k)%nat -> (k <= length ls)%nat ->
  nth_error (firstn k ls ++ tl) j = nth_error ls j.
Proof.
  intros Hj Hk.
  rewrite nth_error_app1 by (rewrite length_firstn; lia).
  rewrite nth_error_firstn.
  replace (Nat.ltb j k) with true by (symmetry; apply Nat.ltb_lt; exact Hj).
  reflexivity.
Qed.

Lemma nth_error_suffix (ls tl : list Layer) (k j : nat) :
  (k <= j)%nat -> (k <= length ls)%nat ->
  nth_error (firstn k ls ++ tl) j = nth_error tl (j - k).
Proof.
  intros Hj Hk.
  rewrite nth_error_app2 by (rewrite length_firstn; lia).
  rewrite length_firstn. f_equal. lia.
Qed.

(** [update_layers(i + 1)] keeps the layers up to [i] and puts every layer
    below on the one above it. *)
Lemma update_layers_below (p : Profile) (i : nat) (ref_layer : Layer) :
  nth_error (data p) i = Some ref_layer ->
  exists p',
    update_layers p (S i) = Ok p'
    /\ wt_depth p' = wt_depth p
    /\ firstn (S i) (data p') = firstn (S i) (data p)
    /\ map thickness (data p') = map thickness (data p)
    /\ chained_from i (data p').
Proof.
  intro Href.
  assert (Hlen : (S i <= length (data p))%nat).
  { apply Nat.le_succ_l. apply nth_error_Some. congruence. }
  destruct (update_from_chained (profile_ref p) (skipn (S i) (data p))
              (depth_base ref_layer) (base_stress ref_layer))
    as [ls' [Hu [Hl [Hth [Hst [Hpr [Hhd Hch]]]]]]].
  exists {| data := firstn (S i) (data p) ++ ls'; wt_depth := wt_depth p |}.
  unfold update_layers.
  replace (Nat.ltb (S i) 1) with false
    by (symmetry; apply Nat.ltb_ge; lia).
  replace (S i - 1)%nat with i by lia.
  rewrite Href, vert_stress_base. cbn [bind fst snd].
  rewrite Hu. cbn [bind data wt_depth].
  split; [reflexivity|]. split; [reflexivity|].
  split.
  { rewrite firstn_app, length_firstn.
    replace (S i - Nat.min (S i) (length (data p)))%nat with 0%nat by lia.
    rewrite firstn_O, app_nil_r, firstn_firstn, Nat.min_id.
    reflexivity. }
  split.
  { rewrite map_app, Hth, <- map_app, firstn_skipn. reflexivity. }
  intros j above below Hj Ha Hb.
  destruct (Nat.eq_dec j i) as [->|Hne].
  - rewrite nth_error_prefix in Ha by lia.
    rewrite nth_error_suffix in Hb by lia.
    replace (S i - S i)%nat with 0%nat in Hb by lia.
    assert (above = ref_layer) as -> by congruence.
    destruct ls' as [|b0 ls'']; [discriminate|].
    cbn in Hb. injection Hb as <-.
    destruct (Hhd b0 eq_refl) as [Hd0 Hv0]. split; assumption.
  - rewrite nth_error_suffix in Ha by lia.
    rewrite nth_error_suffix in Hb by lia.
    replace (S j - S i)%nat with (S (j - S i)) in Hb by lia.
    apply (Hch (j - S i)%nat above below); [lia | assumption | assumption].
Qed.

(** X3: whatever the profile, the layer and the thickness, the [thickness]
    setter stores the thickness and raises: [AttributeError] on a layer with
    no profile, [TypeError] otherwise, since the call it makes passes two
    arguments to [update_layers].  No depth and no stress is recomputed. *)
Theorem set_thickness_raises (p : Profile) (i : nat) (t : Q) (l : Layer) :
  nth_error (data p) i = Some l ->
  raised (set_thickness p i t)
  = Some (match _profile l with
          | Some _ => TypeError
          | None => AttributeError
          end)
  /\ data (state (set_thickness p i t))
     = replace_nth (data p) i (with_thickness l t).
Proof.
  intro Hl. unfold set_thickness. rewrite Hl.
  cbn [_profile with_thickness].
  destruct (_profile l); split; reflexivity.
Qed.

End Column.

(** C1, at the failing input: in the column of 10 m and 15 m over a
    halfspace, built by [Profile], the layers are chained; assigning 5 m to
    the thickness of the first layer raises [TypeError], and leaves the
    second layer at a depth of 10 m under a first layer whose base is now at
    5 m. *)
Theorem thickness_setter_breaks_chain :
  exists p,
    @Profile_init rational_numerics example_layers 0 = Ok p
    /\ map depth (data p) = [0; 10; 25]
    /\ map depth_base (data p) = [10; 25; 25]
    /\ raised (@set_thickness rational_numerics p 0 5) = Some TypeError
    /\ map thickness (data (state (@set_thickness rational_numerics p 0 5)))
       = [5; 15; 0]
    /\ map depth (data (state (@set_thickness rational_numerics p 0 5)))
       = [0; 10; 25]
    /\ map depth_base
         (data (state (@set_thickness rational_numerics p 0 5)))
       = [5; 25; 25].
Proof.
  eexists. split; [vm_compute; reflexivity|].
  repeat split.
Qed.

(** ** Locations *)

Lemma contains_true (l : Layer) (d : Q) :
  contains l d -> Qle_bool (depth l) d && Qltb d (depth_base l) = true.
Proof.
  intros [Hlo Hhi]. apply andb_true_iff. split.
  - apply Qle_bool_iff. exact Hlo.
  - apply Qltb_lt. exact Hhi.
Qed.

Lemma contains_false (l : Layer) (d : Q) :
  ~ contains l d -> Qle_bool (depth l) d && Qltb d (depth_base l) = false.
Proof.
  intro Hn.
  destruct (Qle_bool (depth l) d && Qltb d (depth_base l)) eqn:E;
    [|reflexivity].
  apply andb_true_iff in E. destruct E as [Hlo Hhi].
  exfalso. apply Hn. split.
  - apply Qle_bool_iff. exact Hlo.
  - apply Qltb_lt. exact Hhi.
Qed.

Lemma scan_layers_first (ls : list Layer) :
  forall k d i l,
    nth_error ls i = Some l ->
    contains l d ->
    (forall j lj, (j < i)%nat -> nth_error ls j = Some lj ->
                  ~ contains lj d) ->
    scan_layers ls k d = Some ((k + i)%nat, l, d - depth l).
Proof.
  induction ls as [|a rest IH]; intros k d i l Hi Hc Hbefore.
  - destruct i; discriminate.
  - destruct i as [|i]; cbn in Hi |- *.
    + injection Hi as ->. rewrite (contains_true _ _ Hc).
      rewrite Nat.add_0_r. reflexivity.
    + rewrite (contains_false a d (Hbefore 0%nat a (Nat.lt_0_succ i) eq_refl)).
      rewrite (IH (S k) d i l Hi Hc).
      * f_equal. f_equal. f_equal. lia.
      * intros j lj Hj Hlj. apply (Hbefore (S j) lj); [lia | exact Hlj].
Qed.

Lemma scan_layers_none (ls : list Layer) :
  forall k d,
    (forall lj, In lj ls -> ~ contains lj d) ->
    scan_layers ls k d = None.
Proof.
  induction ls as [|a rest IH]; intros k d Hnone; [reflexivity|].
  cbn. rewrite (contains_false a d (Hnone a (or_introl eq_refl))).
  apply IH. intros lj Hin. apply Hnone. right. exact Hin.
Qed.

Section Locate.
Context `{N : Numerics} `{W : WaveFields}.

(** C5: by depth, [location] returns the first layer above the halfspace
    whose range [depth, depth_base) holds the depth, with the offset of the
    depth below the top of that layer; when no such layer holds it, the
    halfspace at offset zero.  For layers of 10 m and 15 m over a halfspace,
    a depth of 12 gives the second layer at an offset of 2. *)
Theorem location_by_depth (w : WaveField) :
  (forall p d front h i l,
     data p = front ++ [h] ->
     nth_error front i = Some l ->
     contains l d ->
     (forall j lj, (j < i)%nat -> nth_error front j = Some lj ->
                   ~ contains lj d) ->
     location p (inl w) (Some d) None
     = Ok {| loc_index := i; loc_layer := l;
             loc_depth_within := d - depth l; loc_wave_field := w |})
  /\ (forall p d front h,
        data p = front ++ [h] ->
        (forall lj, In lj front -> ~ contains lj d) ->
        location p (inl w) (Some d) None
        = Ok {| loc_index := length front; loc_layer := h;
                loc_depth_within := 0; loc_wave_field := w |})
  /\ (forall l1 l2 h wt,
        thickness l1 = 10 -> thickness l2 = 15 ->
        exists p loc,
          Profile_init [l1; l2; h] wt = Ok p
          /\ location p (inl w) (Some 12) None = Ok loc
          /\ loc_index loc = 1%nat
          /\ nth_error (data p) 1 = Some (loc_layer loc)
          /\ thickness (loc_layer loc) = 15
          /\ loc_depth_within loc == 2).
Proof.
  assert (Hfirst : forall p d front h i l,
     data p = front ++ [h] ->
     nth_error front i = Some l ->
     contains l d ->
     (forall j lj, (j < i)%nat -> nth_error front j = Some lj ->
                   ~ contains lj d) ->
     location p (inl w) (Some d) None
     = Ok {| loc_index := i; loc_layer := l;
             loc_depth_within := d - depth l; loc_wave_field := w |}).
  { intros p d front h i l Hdata Hi Hc Hbefore.
    unfold location. cbn [resolve_wave_field bind].
    rewrite Hdata, removelast_last.
    rewrite (scan_layers_first front 0 d i l Hi Hc Hbefore).
    reflexivity. }
  split; [exact Hfirst|]. split.
  - intros p d front h Hdata Hnone.
    unfold location. cbn [resolve_wave_field bind].
    rewrite Hdata, removelast_last.
    rewrite (scan_layers_none front 0 d Hnone).
    destruct front as [|l0 ls]; cbn [app].
    + reflexivity.
    + rewrite last_last. cbn [length].
      rewrite length_app. cbn [length].
      replace (S (length ls + 1) - 1)%nat with (S (length ls)) by lia.
      reflexivity.
  - intros l1 l2 h wt H1 H2.
    destruct (update_layers_zero {| data := [l1; l2; h]; wt_depth := wt |})
      as [p [Hu [_ [Hth [_ [_ [Hhd Hch]]]]]]].
    cbn [data] in Hth.
    destruct (data p) as [|a [|b [|c [|x rest]]]] eqn:Edata;
      try discriminate.
    cbn [map] in Hth. injection Hth as Ha Hb Hc.
    destruct (Hhd a eq_refl) as [Hda _].
    destruct (Hch 0%nat a b (Nat.le_refl 0) eq_refl eq_refl) as [Hdb _].
    unfold depth_base, depth, thickness in Ha, Hb, H1, H2, Hda, Hdb.
    assert (Hcb : contains b 12).
    { unfold contains, depth_base, depth, thickness.
      rewrite Hdb, Hda, Ha, Hb, H1, H2. split; lra. }
    assert (Hna : ~ contains a 12).
    { unfold contains, depth_base, depth, thickness.
      rewrite Hda, Ha, H1. intros [_ Hlt]. lra. }
    exists p. eexists.
    split; [exact Hu|].
    split.
    { apply (Hfirst p 12 [a; b] c 1%nat b Edata eq_refl Hcb).
      intros j lj Hj Hlj. destruct j as [|j]; [|lia].
      cbn in Hlj. injection Hlj as <-. exact Hna. }
    cbn [loc_index loc_layer loc_depth_within nth_error].
    split; [reflexivity|]. split; [rewrite Edata; reflexivity|].
    split; [unfold thickness; congruence|].
    unfold depth. rewrite Hdb, Hda, Ha, H1. lra.
Qed.

End Locate.

(** C5, on the column of 10 m and 15 m over a halfspace. *)
Lemma location_by_depth_witness :
  exists p loc,
    @Profile_init rational_numerics example_layers 0 = Ok p
    /\ @location rational_numerics motion_wave_fields p (inl within)
         (Some 12) None = Ok loc
    /\ loc_index loc = 1%nat
    /\ nth_error (data p) 1 = Some (loc_layer loc)
    /\ thickness (loc_layer loc) = 15
    /\ loc_depth_within loc == 2.
Proof.
  exact (proj2 (proj2 (@location_by_depth rational_numerics
                         motion_wave_fields within))
           (bare_layer elastic_soil 10 200) (bare_layer elastic_soil 15 400)
           (bare_layer elastic_soil 0 760) 0 eq_refl eq_refl).
Defined.

(** ** Empirical curves *)

Lemma np_leb_fin (a b : Q) : np_leb (Fin a) (Fin b) = true <-> a <= b.
Proof.
  cbn. unfold Qltb. rewrite negb_involutive. apply Qle_bool_iff.
Qed.

Lemma np_leb_not_nan (x y : npfloat) :
  np_leb x y = true -> x <> NaN /\ y <> NaN.
Proof.
  destruct x, y; cbn; intro Hle; split; discriminate.
Qed.

Lemma np_leb_refl (x : npfloat) : x <> NaN -> np_leb x x = true.
Proof.
  destruct x; intro Hx; try reflexivity.
  - apply np_leb_fin. apply Qle_refl.
  - contradiction.
Qed.

Lemma np_leb_trans (a b c : npfloat) :
  np_leb a b = true -> np_leb b c = true -> np_leb a c = true.
Proof.
  destruct a as [a| | |], b as [b| | |], c as [c| | |];
    cbn; try discriminate; try reflexivity.
  unfold Qltb. rewrite !negb_involutive.
  intros Hab Hbc. apply Qle_bool_iff.
  apply Qle_bool_iff in Hab. apply Qle_bool_iff in Hbc.
  exact (Qle_trans _ _ _ Hab Hbc).
Qed.

Lemma np_ltb_leb (x y : npfloat) : np_ltb x y = true -> np_leb x y = true.
Proof.
  destruct x as [a| | |], y as [b| | |]; cbn; try discriminate;
    try reflexivity.
  intro Hab. apply Qltb_lt in Hab.
  apply negb_true_iff. apply Qltb_ge. apply Qlt_le_weak. exact Hab.
Qed.

Lemma np_leb_of_not_ltb (x y : npfloat) :
  is_nan x = false -> is_nan y = false -> np_ltb y x = false ->
  np_leb x y = true.
Proof.
  intros Hx Hy Hlt.
  destruct x, y; try discriminate;
    cbv beta iota delta [np_leb]; rewrite Hlt; reflexivity.
Qed.

(** [np.maximum] returns NaN when an argument is NaN, and otherwise the
    argument that is at least the other. *)
Lemma np_maximum_cases (m x : npfloat) :
  (np_maximum m x = NaN /\ (m = NaN \/ x = NaN))
  \/ ((np_maximum m x = m \/ np_maximum m x = x)
      /\ np_leb m (np_maximum m x) = true
      /\ np_leb x (np_maximum m x) = true).
Proof.
  unfold np_maximum.
  destruct (is_nan m) eqn:Em.
  { left. split; [reflexivity|]. left. destruct m; try discriminate.
    reflexivity. }
  destruct (is_nan x) eqn:Ex.
  { left. split; [reflexivity|]. right. destruct x; try discriminate.
    reflexivity. }
  right. destruct (np_ltb m x) eqn:E.
  - split; [right; reflexivity|]. split.
    + apply np_ltb_leb. exact E.
    + apply np_leb_refl. intros ->. discriminate.
  - split; [left; reflexivity|]. split.
    + apply np_leb_refl. intros ->. discriminate.
    + apply np_leb_of_not_ltb; assumption.
Qed.

Lemma np_maximum_same (x : npfloat) : np_maximum x x = x.
Proof.
  destruct x as [a| | |]; try reflexivity.
  unfold np_maximum. cbn.
  replace (Qltb a a) with false; [reflexivity|].
  symmetry. apply Qltb_ge. apply Qle_refl.
Qed.

Lemma length_accumulate_from (l : list npfloat) :
  forall m, length (accumulate_from m l) = length l.
Proof.
  induction l as [|a rest IH]; intro m; [reflexivity|].
  cbn. rewrite IH. reflexivity.
Qed.

Lemma length_maximum_accumulate (l : list npfloat) :
  length (maximum_accumulate l) = length l.
Proof.
  destruct l as [|a rest]; [reflexivity|].
  cbn. rewrite length_accumulate_from. reflexivity.
Qed.

Lemma maximum_accumulate_from (x : npfloat) (rest : list npfloat) :
  maximum_accumulate (x :: rest) = accumulate_from x (x :: rest).
Proof.
  cbn. rewrite np_maximum_same. reflexivity.
Qed.

(** Each element of the running maximum started at [m] is [m] or an element
    met so far, and is NaN or at least [m] and the element at its index. *)
Lemma accumulate_from_spec (l : list npfloat) :
  forall m k v,
    nth_error (accumulate_from m l) k = Some v ->
    (v = NaN \/ np_leb m v = true)
    /\ (v = m \/ exists i, (i <= k)%nat /\ nth_error l i = Some v)
    /\ (forall r, nth_error l k = Some r -> v = NaN \/ np_leb r v = true).
Proof.
  induction l as [|x rest IH]; intros m k v Hk.
  - destruct k; discriminate.
  - destruct k as [|k]; cbn in Hk.
    + injection Hk as <-.
      destruct (np_maximum_cases m x) as [[Hn Hor]|[Hor [Hm Hx]]].
      * split; [left; exact Hn|]. split.
        -- rewrite Hn. destruct Hor as [-> | ->];
             [left; reflexivity|].
           right. exists 0%nat. split; [lia | reflexivity].
        -- intros r Hr. left. exact Hn.
      * split; [right; exact Hm|]. split.
        -- destruct Hor as [Hor|Hor]; [left; exact Hor|].
           right. exists 0%nat. split; [lia|]. cbn. rewrite Hor.
           reflexivity.
        -- intros r Hr. cbn in Hr. injection Hr as <-. right. exact Hx.
    + destruct (IH _ _ _ Hk) as [H1 [H2 H3]].
      split; [|split].
      * destruct H1 as [H1|H1]; [left; exact H1|].
        destruct (np_maximum_cases m x) as [[Hn Hor]|[Hor [Hm Hx]]].
        -- rewrite Hn in H1. destruct v; discriminate.
        -- right. exact (np_leb_trans _ _ _ Hm H1).
      * destruct H2 as [H2|[i [Hi Hv]]].
        -- destruct (np_maximum_cases m x) as [[Hn Hor]|[Hor [Hm Hx]]].
           ++ rewrite Hn in H2. subst v.
              destruct Hor as [-> | ->]; [left; reflexivity|].
              right. exists 0%nat. split; [lia | reflexivity].
           ++ destruct Hor as [Hor|Hor].
              ** left. rewrite H2. exact Hor.
              ** right. exists 0%nat. split; [lia|]. cbn.
                 rewrite H2, Hor. reflexivity.
        -- right. exists (S i). split; [lia | exact Hv].
      * intros r Hr. cbn in Hr. exact (H3 r Hr).
Qed.

Lemma accumulate_from_monotone (l : list npfloat) :
  forall m, nondecreasing_or_nan (accumulate_from m l).
Proof.
  induction l as [|x rest IH]; intros m j k vj vk Hjk Hj Hk.
  - destruct j; discriminate.
  - destruct k as [|k]; [lia|]. cbn in Hk.
    destruct j as [|j]; cbn in Hj.
    + injection Hj as <-.
      exact (proj1 (accumulate_from_spec _ _ _ _ Hk)).
    + apply (IH (np_maximum m x) j k); [lia | assumption | assumption].
Qed.

Lemma maximum_accumulate_monotone (l : list npfloat) :
  nondecreasing_or_nan (maximum_accumulate l).
Proof.
  destruct l as [|x rest].
  - intros j k vj vk _ Hj. destruct j; discriminate.
  - rewrite maximum_accumulate_from. apply accumulate_from_monotone.
Qed.

(** [np.maximum.accumulate] computes the running maximum. *)
Lemma maximum_accumulate_running (l : list npfloat) :
  running_maximum_of l (maximum_accumulate l).
Proof.
  split; [apply length_maximum_accumulate|].
  intros k v Hk.
  assert (Hin : exists i, (i <= k)%nat /\ nth_error l i = Some v).
  { destruct l as [|x rest]; [destruct k; discriminate|].
    rewrite maximum_accumulate_from in Hk.
    destruct (accumulate_from_spec _ _ _ _ Hk) as [_ [[Hv|Hv] _]].
    - exists 0%nat. split; [lia|]. cbn. rewrite Hv. reflexivity.
    - exact Hv. }
  split; [exact Hin|].
  intros i r Hik Hr.
  assert (Hlen : (i < length (maximum_accumulate l))%nat).
  { rewrite length_maximum_accumulate. apply nth_error_Some.
    rewrite Hr. discriminate. }
  destruct (nth_error (maximum_accumulate l) i) as [w|] eqn:Ew;
    [|apply nth_error_None in Ew; lia].
  assert (Hrw : w = NaN \/ np_leb r w = true).
  { destruct l as [|x rest]; [destruct i; discriminate|].
    rewrite maximum_accumulate_from in Ew.
    exact (proj2 (proj2 (accumulate_from_spec _ _ _ _ Ew)) r Hr). }
  destruct (Nat.eq_dec i k) as [->|Hne].
  - rewrite Hk in Ew. injection Ew as <-. exact Hrw.
  - destruct (maximum_accumulate_monotone l i k w v ltac:(lia) Ew Hk)
      as [Hv|Hwv]; [left; exact Hv|].
    destruct Hrw as [Hw|Hrw].
    + rewrite Hw in Hwv. discriminate.
    + right. exact (np_leb_trans _ _ _ Hrw Hwv).
Qed.

Lemma percent_fin (a : Q) : np_div (Fin a) (Fin 100) = Fin (a / 100).
Proof. reflexivity. Qed.

Lemma percent_leb (x y : npfloat) :
  np_leb x y = true ->
  np_leb (np_div x (Fin 100)) (np_div y (Fin 100)) = true.
Proof.
  destruct x as [a| | |], y as [b| | |]; try discriminate;
    try reflexivity.
  rewrite !percent_fin. intro Hab. apply np_leb_fin.
  apply np_leb_fin in Hab.
  unfold Qdiv. apply Qmult_le_compat_r; [exact Hab|].
  vm_compute. discriminate.
Qed.

(** Dividing by 100 keeps the order, NaN included. *)
Lemma percent_monotone (l : list npfloat) :
  nondecreasing_or_nan l ->
  nondecreasing_or_nan (map (fun d => np_div d (Fin 100)) l).
Proof.
  intros Hl j k vj vk Hjk Hj Hk.
  rewrite nth_error_map in Hj, Hk.
  destruct (nth_error l j) as [a|] eqn:Ea; [|discriminate].
  destruct (nth_error l k) as [b|] eqn:Eb; [|discriminate].
  cbn in Hj, Hk. injection Hj as <-. injection Hk as <-.
  destruct (Hl j k a b Hjk Ea Eb) as [->|Hab].
  - left. reflexivity.
  - right. apply percent_leb. exact Hab.
Qed.

Lemma length_zip_with (f : npfloat -> npfloat -> npfloat)
  (a : list npfloat) :
  forall b, length a = length b -> length (zip_with f a b) = length a.
Proof.
  induction a as [|x a IH]; intros [|y b] Hlen; cbn in *;
    try reflexivity; try discriminate.
  rewrite IH; [reflexivity | lia].
Qed.

Section Curves.
Context `{N : Numerics}.

Lemma update_keeps (p : NonlinearProperty) :
  name (_update p) = name p
  /\ _strains (_update p) = _strains p
  /\ _values (_update p) = _values p
  /\ _param (_update p) = _param p.
Proof.
  unfold _update.
  destruct (negb (Nat.eqb (length (_strains p)) 0)
            && Nat.eqb (length (_strains p)) (length (_values p)));
    repeat split.
Qed.

Lemma NonlinearProperty_init_stores nm strains values param c :
  NonlinearProperty_init nm strains values param = Ok c ->
  name c = nm /\ _strains c = strains /\ _values c = values
  /\ _param c = param.
Proof.
  unfold NonlinearProperty_init, set_param. intro Hc.
  destruct param as [tag|].
  - destruct (String.eqb tag "").
    + cbn in Hc. injection Hc as <-.
      destruct (update_keeps
        {| name := nm; _strains := strains; _values := values;
           _interpolater := None; _param := Some tag |})
        as [H1 [H2 [H3 H4]]].
      repeat split; assumption.
    + destruct (existsb (String.eqb tag) PARAMS); [|discriminate].
      cbn in Hc. injection Hc as <-.
      destruct (update_keeps
        {| name := nm; _strains := strains; _values := values;
           _interpolater := None; _param := Some tag |})
        as [H1 [H2 [H3 H4]]].
      repeat split; assumption.
  - cbn in Hc. injection Hc as <-.
    destruct (update_keeps
      {| name := nm; _strains := strains; _values := values;
         _interpolater := None; _param := None |})
      as [H1 [H2 [H3 H4]]].
    repeat split; assumption.
Qed.

Lemma length_computed_damping sr cv dmin nc strains :
  length (computed_damping sr cv dmin nc strains) = length strains.
Proof.
  unfold computed_damping, masing_corrected, masing_a1, modulus_reduction.
  rewrite length_zip_with; rewrite !length_map; reflexivity.
Qed.

(** What the shared constructor leaves when it builds the object: the hooks
    returned floats, and the two curves hold the computed arrays over the
    grid. *)
Lemma init_built cls o nm uw nc strains e :
  DarendeliSoilType_init cls o nm uw nc strains = Ok (Built e) ->
  exists sr cv dmin lab,
    _calc_strain_ref cls o = Ok (SFloat sr)
    /\ _calc_curvature cls o = Ok (SFloat cv)
    /\ _calc_damping_min cls o = Ok (SFloat dmin)
    /\ e = {| es_class := cls; es_attrs := o; es_name := nm;
              es_unit_wt := uw;
              es_mod_reduc :=
                {| fc_name := lab; fc_strains := strains;
                   fc_values := modulus_reduction sr cv strains;
                   fc_param := Some "mod_reduc"%string |};
              es_damping :=
                {| fc_name := lab; fc_strains := strains;
                   fc_values :=
                     map (fun d => np_div d (Fin 100))
                       (maximum_accumulate
                          (computed_damping sr cv dmin nc strains));
                   fc_param := Some "damping"%string |} |}.
Proof.
  unfold DarendeliSoilType_init. intro He.
  destruct (_calc_strain_ref cls o) as [[sr|]|]; cbn in He;
    [| |discriminate].
  2:{ destruct (_calc_curvature cls o) as [c|]; cbn in He; discriminate. }
  destruct (_calc_curvature cls o) as [[cv|]|]; cbn in He;
    [|discriminate|discriminate].
  destruct (_nlp_name cls o) as [lab|]; cbn in He; [|discriminate].
  destruct (_calc_damping_min cls o) as [[dmin|]|]; cbn in He;
    [|discriminate|discriminate].
  injection He as <-.
  exists sr, cv, dmin, lab. repeat split.
Qed.

(** C3 (amended): when the constructor shared by [DarendeliSoilType] and
    [MenqSoilType] builds the object, the damping curve it stores holds one
    value per strain of the grid, and these values are the running maximum
    of the computed damping, divided by 100: each stored value is one of
    the computed values up to its index, and is NaN or at least each of
    them.  So along the grid a later stored value is NaN or at least each
    earlier one, and where no stored value is NaN the curve never
    decreases. *)
Theorem empirical_damping_running_maximum cls o nm uw nc strains e :
  DarendeliSoilType_init cls o nm uw nc strains = Ok (Built e) ->
  exists sr cv dmin acc,
    _calc_strain_ref cls o = Ok (SFloat sr)
    /\ _calc_curvature cls o = Ok (SFloat cv)
    /\ _calc_damping_min cls o = Ok (SFloat dmin)
    /\ running_maximum_of (computed_damping sr cv dmin nc strains) acc
    /\ fc_values (es_damping e) = map (fun d => np_div d (Fin 100)) acc
    /\ fc_strains (es_damping e) = strains
    /\ length (fc_values (es_damping e)) = length strains
    /\ nondecreasing_or_nan (fc_values (es_damping e))
    /\ (Forall (fun v => v <> NaN) (fc_values (es_damping e)) ->
        forall j k vj vk,
          (j < k)%nat ->
          nth_error (fc_values (es_damping e)) j = Some vj ->
          nth_error (fc_values (es_damping e)) k = Some vk ->
          np_leb vj vk = true).
Proof.
  intro He.
  destruct (init_built _ _ _ _ _ _ _ He)
    as [sr [cv [dmin [lab [Hsr [Hcv [Hd ->]]]]]]].
  exists sr, cv, dmin,
    (maximum_accumulate (computed_damping sr cv dmin nc strains)).
  cbn [es_damping fc_values fc_strains].
  assert (Hmono : nondecreasing_or_nan
            (map (fun d => np_div d (Fin 100))
               (maximum_accumulate
                  (computed_damping sr cv dmin nc strains)))).
  { apply percent_monotone. apply maximum_accumulate_monotone. }
  split; [exact Hsr|]. split; [exact Hcv|]. split; [exact Hd|].
  split; [apply maximum_accumulate_running|].
  split; [reflexivity|]. split; [reflexivity|].
  split.
  { rewrite length_map, length_maximum_accumulate.
    apply length_computed_damping. }
  split; [exact Hmono|].
  intros Hall j k vj vk Hjk Hj Hk.
  destruct (Hmono j k vj vk Hjk Hj Hk) as [Hn|Hle]; [|exact Hle].
  exfalso. rewrite Forall_forall in Hall.
  apply (Hall vk); [|exact Hn].
  exact (nth_error_In _ _ Hk).
Qed.

End Curves.

(** C3, on a clay of plasticity index 0 over a three-point strain grid. *)
Lemma empirical_damping_running_maximum_witness :
  @DarendeliSoilType rational_numerics "clay" 18 0 1 101.3 1 10
    [0.0001; 0.001; 0.01] = Ok (Built example_darendeli)
  /\ exists sr cv dmin acc,
       @_calc_strain_ref rational_numerics Darendeli
         (es_attrs example_darendeli) = Ok (SFloat sr)
       /\ @_calc_curvature rational_numerics Darendeli
            (es_attrs example_darendeli) = Ok (SFloat cv)
       /\ @_calc_damping_min rational_numerics Darendeli
            (es_attrs example_darendeli) = Ok (SFloat dmin)
       /\ running_maximum_of
            (@computed_damping rational_numerics sr cv dmin 10
               [0.0001; 0.001; 0.01]) acc
       /\ fc_values (es_damping example_darendeli)
          = map (fun d => np_div d (Fin 100)) acc
       /\ fc_strains (es_damping example_darendeli)
          = [0.0001; 0.001; 0.01]
       /\ length (fc_values (es_damping example_darendeli)) = 3%nat
       /\ nondecreasing_or_nan (fc_values (es_damping example_darendeli))
       /\ (Forall (fun v => v <> NaN)
             (fc_values (es_damping example_darendeli)) ->
           forall j k vj vk,
             (j < k)%nat ->
             nth_error (fc_values (es_damping example_darendeli)) j
             = Some vj ->
             nth_error (fc_values (es_damping example_darendeli)) k
             = Some vk ->
             np_leb vj vk = true).
Proof.
  assert (He : @DarendeliSoilType rational_numerics "clay" 18 0 1 101.3 1
                 10 [0.0001; 0.001; 0.01] = Ok (Built example_darendeli)).
  { vm_compute. reflexivity. }
  split; [exact He|].
  exact (@empirical_damping_running_maximum rational_numerics Darendeli
           (es_attrs example_darendeli) "clay"%string 18 10
           [0.0001; 0.001; 0.01] example_darendeli He).
Defined.

(** C3, counterexample: a [DarendeliSoilType] over a strain grid that
    starts at zero.  The Masing term divides zero by zero there, the
    computed damping is NaN at the first strain, the running maximum keeps
    the NaN, and every stored damping value is NaN: no stored value is at
    most the next one. *)
Lemma zero_strain_damping_is_nan :
  @DarendeliSoilType rational_numerics "clay" 18 0 1 101.3 1 10
    [0; 0.001; 0.01] = Ok (Built zero_strain_darendeli)
  /\ fc_strains (es_damping zero_strain_darendeli) = [0; 0.001; 0.01]
  /\ fc_values (es_damping zero_strain_darendeli) = [NaN; NaN; NaN]
  /\ np_leb NaN NaN = false.
Proof.
  vm_compute. repeat split.
Qed.

(** ** Interpolation out of range *)






Section OutOfRange.
Context `{N : Numerics}.






End OutOfRange.


(** C4: what the code returns out of range is not always the boundary value
    the docstring of [__call__] promises.  The two-point curve stored at
    strains 0.0001 and 0.01 with first value 1, evaluated at the strain -1,
    which is below the smallest stored strain: the logarithm is NaN, no
    bound is exceeded, and the result is NaN, not the first stored value.
    And the curve given its strains in descending order, 0.01 with value 0.5
    then 0.0001 with value 1, evaluated at 0.00001, below the smallest
    stored strain: the result is the first value given, 0.5, which is
    stored with the largest strain, not the value 1 at the boundary the
    strain lies beyond. *)
Theorem negative_strain_not_clamped :
  Qltb (-1) 0.0001 = true
  /\ _strains example_mod_reduc = [0.0001; 0.01]
  /\ _values example_mod_reduc = [1; 0.5]
  /\ @NonlinearProperty_call rational_numerics example_mod_reduc (-1)
     = Ok NaN
  /\ _strains descending_curve = [0.01; 0.0001]
  /\ _values descending_curve = [0.5; 1]
  /\ Qltb 0.00001 0.0001 = true
  /\ @NonlinearProperty_call rational_numerics descending_curve 0.00001
     = Ok (Fin 0.5).
Proof. repeat split. Qed.



(** ** Further properties of the column *)

Lemma chained_cons (a : Layer) (ls : list Layer) :
  chained (a :: ls) -> chained ls.
Proof.
  intros Hch i above below _ Ha Hb.
  apply (Hch (S i) above below); [lia | exact Ha | exact Hb].
Qed.

Lemma chained_positions (ls : list Layer) :
  forall d0 vs0 l0,
    chained ls ->
    hd_error ls = Some l0 -> depth l0 == d0 -> _vert_stress l0 == vs0 ->
    forall i l,
      nth_error ls i = Some l ->
      depth l == d0 + Qsum (firstn i (map thickness ls))
      /\ _vert_stress l == vs0 + Qsum (firstn i (map layer_weight ls)).
Proof.
  induction ls as [|a rest IH]; intros d0 vs0 l0 Hch Hhd Hd Hv i l Hi.
  - destruct i; discriminate.
  - cbn in Hhd. injection Hhd as ->.
    destruct i as [|i]; cbn in Hi.
    + injection Hi as ->. cbn. split; lra.
    + destruct rest as [|b rest']; [destruct i; discriminate|].
      destruct (Hch 0%nat l0 b (Nat.le_refl 0) eq_refl eq_refl)
        as [Hdb Hvb].
      destruct (IH (depth_base l0) (base_stress l0) b
                  (chained_cons _ _ Hch) eq_refl) with (i := i) (l := l)
        as [Hdl Hvl].
      * rewrite Hdb. reflexivity.
      * rewrite Hvb. reflexivity.
      * exact Hi.
      * cbn [map firstn Qsum]. cbn [map] in Hdl, Hvl.
        rewrite Hdl, Hvl.
        unfold depth_base, base_stress, layer_weight, thickness, depth in *.
        split; lra.
Qed.

Lemma map_layer_weight (ls ls' : list Layer) :
  map thickness ls = map thickness ls' ->
  map soil_type ls = map soil_type ls' ->
  map layer_weight ls = map layer_weight ls'.
Proof.
  revert ls'. induction ls as [|x xs IH]; intros [|y ys] Hth Hst;
    try discriminate; [reflexivity|].
  cbn in Hth, Hst |- *. injection Hth as Ht1 Ht2.
  injection Hst as Hs1 Hs2.
  rewrite (IH ys Ht2 Hs2). f_equal.
  unfold layer_weight, Layer_unit_wt. rewrite Ht1, Hs1. reflexivity.
Qed.

Section ColumnProperties.
Context `{N : Numerics}.

(** Construction of a profile, with everything it establishes. *)
Lemma Profile_init_chained (layers : list Layer) (wt : Q) :
  exists p,
    Profile_init layers wt = Ok p
    /\ wt_depth p = wt
    /\ map thickness (data p) = map thickness layers
    /\ map soil_type (data p) = map soil_type layers
    /\ (layers = [] \/
        Forall (fun l => _profile l = Some {| ref_wt_depth := wt |})
          (data p))
    /\ (forall l, hd_error (data p) = Some l ->
          depth l = 0 /\ _vert_stress l = 0)
    /\ chained (data p).
Proof.
  destruct layers as [|l0 ls].
  - exists {| data := []; wt_depth := wt |}. cbn.
    repeat (split; [first [reflexivity | left; reflexivity]|]).
    split; [discriminate|].
    intros i a b _ Ha. destruct i; discriminate.
  - destruct (update_layers_zero {| data := l0 :: ls; wt_depth := wt |})
      as [p [Hu [Hwt [Hth [Hst [Hpr [Hhd Hch]]]]]]].
    exists p. cbn [Profile_init].
    split; [exact Hu|]. split; [exact Hwt|]. split; [exact Hth|].
    split; [exact Hst|]. split; [right; exact Hpr|].
    split; assumption.
Qed.

(** X1: building a [Profile] never fails and chains the whole column: the
    first layer is at depth 0 under stress 0, every other layer sits at the
    base of the one above with the total stress of that base, every layer
    is attached to the profile, and thicknesses and soil types are kept. *)
Theorem profile_construction_chains (layers : list Layer) (wt : Q) :
  exists p,
    Profile_init layers wt = Ok p
    /\ wt_depth p = wt
    /\ map thickness (data p) = map thickness layers
    /\ map soil_type (data p) = map soil_type layers
    /\ (layers = [] \/
        Forall (fun l => _profile l = Some {| ref_wt_depth := wt |})
          (data p))
    /\ (forall l, hd_error (data p) = Some l ->
          depth l = 0 /\ _vert_stress l = 0)
    /\ chained (data p).
Proof. exact (Profile_init_chained layers wt). Qed.

(** X2: in a profile that was built, the depth of a layer is the sum of the
    thicknesses of the layers above it, and the stress at its top the sum
    of their thickness times unit weight; the thickness of the halfspace
    enters neither. *)
Theorem depth_is_cumulative_thickness (layers : list Layer) (wt : Q)
  (p : Profile) (i : nat) (l : Layer) :
  Profile_init layers wt = Ok p ->
  nth_error (data p) i = Some l ->
  depth l == Qsum (firstn i (map thickness layers))
  /\ _vert_stress l == Qsum (firstn i (map layer_weight layers)).
Proof.
  intros Hp Hi.
  destruct (Profile_init_chained layers wt)
    as [p' [Hp' [_ [Hth [Hst [_ [Hhd Hch]]]]]]].
  rewrite Hp in Hp'. injection Hp' as <-.
  destruct (data p) as [|l0 rest] eqn:Edata; [destruct i; discriminate|].
  destruct (Hhd l0 eq_refl) as [Hd0 Hv0].
  destruct (chained_positions (l0 :: rest) 0 0 l0 Hch eq_refl) with
    (i := i) (l := l) as [Hd Hv].
  - rewrite Hd0. reflexivity.
  - rewrite Hv0. reflexivity.
  - exact Hi.
  - rewrite Hd, Hv, Hth, (map_layer_weight _ _ Hth Hst).
    split; lra.
Qed.

End ColumnProperties.

(** X2, on the halfspace of the column of 10 m and 15 m. *)
Lemma depth_is_cumulative_thickness_witness :
  exists l,
    @Profile_init rational_numerics example_layers 0 = Ok (example_profile 0)
    /\ nth_error (data (example_profile 0)) 2 = Some l
    /\ depth l == Qsum (firstn 2 (map thickness example_layers))
    /\ _vert_stress l == Qsum (firstn 2 (map layer_weight example_layers)).
Proof.
  eexists.
  split; [vm_compute; reflexivity|].
  split; [reflexivity|].
  apply (@depth_is_cumulative_thickness rational_numerics example_layers 0
           (example_profile 0) 2%nat); reflexivity.
Defined.

(** X3, on the first layer of the column of 10 m and 15 m. *)
Lemma set_thickness_raises_witness :
  exists l,
    nth_error (data (example_profile 0)) 0 = Some l
    /\ _profile l = Some {| ref_wt_depth := 0 |}
    /\ raised (@set_thickness rational_numerics (example_profile 0) 0 5)
       = Some (match _profile l with
               | Some _ => TypeError
               | None => AttributeError
               end)
    /\ data (state (@set_thickness rational_numerics (example_profile 0) 0 5))
       = replace_nth (data (example_profile 0)) 0 (with_thickness l 5).
Proof.
  eexists.
  split; [reflexivity|].
  split; [reflexivity|].
  apply (@set_thickness_raises rational_numerics (example_profile 0) 0%nat 5).
  reflexivity.
Defined.

Lemma nth_error_of_firstn (ls ls' : list Layer) (k j : nat) :
  firstn k ls = firstn k ls' -> (j < k)%nat ->
  nth_error ls j = nth_error ls' j.
Proof.
  intros Hf Hj.
  assert (H1 : nth_error (firstn k ls) j = nth_error ls j).
  { rewrite nth_error_firstn.
    replace (Nat.ltb j k) with true by (symmetry; apply Nat.ltb_lt; lia).
    reflexivity. }
  assert (H2 : nth_error (firstn k ls') j = nth_error ls' j).
  { rewrite nth_error_firstn.
    replace (Nat.ltb j k) with true by (symmetry; apply Nat.ltb_lt; lia).
    reflexivity. }
  rewrite <- H1, <- H2, Hf. reflexivity.
Qed.

Section Repair.
Context `{N : Numerics}.

(** X4: [update_layers(i + 1)] is the recompute a change of the thickness of
    layer [i] needs: when the layers down to [i] are chained, it leaves
    them as they are and chains the whole column again, whatever the
    depths and stresses stored below. *)
Theorem update_layers_restores_chain (p : Profile) (i : nat)
  (ref_layer : Layer) :
  nth_error (data p) i = Some ref_layer ->
  chained (firstn (S i) (data p)) ->
  exists p',
    update_layers p (S i) = Ok p'
    /\ firstn (S i) (data p') = firstn (S i) (data p)
    /\ map thickness (data p') = map thickness (data p)
    /\ chained (data p').
Proof.
  intros Href Hpre.
  destruct (update_layers_below p i ref_layer Href)
    as [p' [Hu [_ [Hfirst [Hth Hfrom]]]]].
  exists p'. split; [exact Hu|]. split; [exact Hfirst|].
  split; [exact Hth|].
  intros j above below _ Ha Hb.
  destruct (Nat.lt_ge_cases j i) as [Hlt|Hge].
  - rewrite (nth_error_of_firstn _ _ (S i) j Hfirst) in Ha by lia.
    rewrite (nth_error_of_firstn _ _ (S i) (S j) Hfirst) in Hb by lia.
    apply (Hpre j above below); [lia | |].
    + rewrite nth_error_firstn.
      replace (Nat.ltb j (S i)) with true
        by (symmetry; apply Nat.ltb_lt; lia).
      exact Ha.
    + rewrite nth_error_firstn.
      replace (Nat.ltb (S j) (S i)) with true
        by (symmetry; apply Nat.ltb_lt; lia).
      exact Hb.
  - apply (Hfrom j above below); assumption.
Qed.

(** X5: in a profile that was built, the effective stress is defined at
    every offset within every layer: it is the total stress less the pore
    pressure of the profile at that depth. *)
Theorem effective_stress_in_profile (layers : list Layer) (wt : Q)
  (p : Profile) (l : Layer) (depth_within : Q) :
  Profile_init layers wt = Ok p ->
  In l (data p) ->
  depth_within <= thickness l ->
  vert_stress l depth_within true
  = Ok (_vert_stress l + depth_within * Layer_unit_wt l
        - pore_pressure p (depth l + depth_within)).
Proof.
  intros Hp Hin Hle.
  destruct (Profile_init_chained layers wt)
    as [p' [Hp' [Hwt [_ [_ [Hatt _]]]]]].
  rewrite Hp in Hp'. injection Hp' as <-.
  destruct Hatt as [-> | Hatt].
  - cbn in Hp. injection Hp as <-. contradiction.
  - rewrite Forall_forall in Hatt. specialize (Hatt l Hin).
    unfold vert_stress, pore_pressure.
    apply Qle_bool_iff in Hle. rewrite Hle, Hatt, Hwt. reflexivity.
Qed.

End Repair.

(** X4, on the column the failed setter left: recomputing from the second
    layer chains it again, with the second layer at 5 m. *)
Lemma update_layers_restores_chain_witness :
  exists l p',
    nth_error (data example_stale_profile) 0 = Some l
    /\ thickness l = 5
    /\ @update_layers rational_numerics example_stale_profile 1 = Ok p'
    /\ firstn 1 (data p') = firstn 1 (data example_stale_profile)
    /\ map thickness (data p') = map thickness (data example_stale_profile)
    /\ chained (data p').
Proof.
  eexists. 
  destruct (@update_layers_restores_chain rational_numerics
              example_stale_profile 0
              (with_thickness
                 (with_position (bare_layer elastic_soil 10 200)
                    {| ref_wt_depth := 0 |} 0 0) 5) eq_refl)
    as [p' Hp'].
  - intros i a b _ Ha Hb. destruct i as [|i]; cbn in Hb;
      [discriminate | destruct i; discriminate].
  - exists p'. split; [reflexivity|]. split; [reflexivity|]. exact Hp'.
Defined.

(** X5, at 5 m in the second layer of the column of 10 m and 15 m, with the
    water table at 12 m. *)
Lemma effective_stress_in_profile_witness :
  exists l,
    nth_error (data (example_profile 12)) 1 = Some l
    /\ @vert_stress rational_numerics l 5 true
       = Ok (_vert_stress l + 5 * Layer_unit_wt l
             - @pore_pressure rational_numerics (example_profile 12)
                 (depth l + 5)).
Proof.
  eexists.
  split; [reflexivity|].
  apply (@effective_stress_in_profile rational_numerics example_layers 12).
  - vm_compute. reflexivity.
  - right. left. reflexivity.
  - vm_compute. discriminate.
Defined.

(** ** Further properties of locations *)

Lemma scan_layers_sound (ls : list Layer) :
  forall k d i l dw,
    scan_layers ls k d = Some (i, l, dw) ->
    exists j, i = (k + j)%nat /\ nth_error ls j = Some l
              /\ contains l d /\ dw = d - depth l.
Proof.
  induction ls as [|a rest IH]; intros k d i l dw Hs; [discriminate|].
  cbn in Hs.
  destruct (Qle_bool (depth a) d && Qltb d (depth_base a)) eqn:E.
  - injection Hs as <- <- <-. exists 0%nat.
    apply andb_true_iff in E. destruct E as [Hlo Hhi].
    split; [lia|]. split; [reflexivity|]. split; [|reflexivity].
    split; [apply Qle_bool_iff; exact Hlo | apply Qltb_lt; exact Hhi].
  - destruct (IH _ _ _ _ _ Hs) as [j [Hi [Hj Hrest]]].
    exists (S j). split; [lia|]. split; [exact Hj | exact Hrest].
Qed.

Lemma nth_error_removelast (ls : list Layer) (j : nat) (l : Layer) :
  nth_error (removelast ls) j = Some l ->
  nth_error ls j = Some l /\ (S j < length ls)%nat.
Proof.
  rewrite removelast_firstn_len, nth_error_firstn.
  destruct (Nat.ltb j (Nat.pred (length ls))) eqn:E; [|discriminate].
  apply Nat.ltb_lt in E. intro Hj. split; [exact Hj | lia].
Qed.

Lemma last_cons (a d : Layer) (rest : list Layer) :
  last (a :: rest) d = last rest a.
Proof.
  revert a d. induction rest as [|b r IH]; intros a d; [reflexivity|].
  change (last (a :: b :: r) d) with (last (b :: r) d).
  rewrite (IH b d). symmetry. apply (IH b a).
Qed.

Lemma nth_error_last (l0 : Layer) (ls : list Layer) :
  nth_error (l0 :: ls) (length ls) = Some (last ls l0).
Proof.
  revert l0. induction ls as [|a rest IH]; intro l0; [reflexivity|].
  cbn [length nth_error]. rewrite (IH a), last_cons. reflexivity.
Qed.

Section LocateMore.
Context `{N : Numerics} `{W : WaveFields}.

(** X6: a location found by depth always addresses a layer of the profile.
    Either it is a layer above the halfspace that holds the depth, and then
    the offset lies in [0, thickness) and the total stress at the location
    is defined; or it is the last layer at offset zero. *)
Theorem location_offset_in_layer (p : Profile) (wf : WaveField + string)
  (d : Q) (loc : Location) :
  location p wf (Some d) None = Ok loc ->
  nth_error (data p) (loc_index loc) = Some (loc_layer loc)
  /\ (((S (loc_index loc) < length (data p))%nat
       /\ contains (loc_layer loc) d
       /\ 0 <= loc_depth_within loc
       /\ loc_depth_within loc < thickness (loc_layer loc)
       /\ Location_vert_stress loc false
          = Ok (_vert_stress (loc_layer loc)
                + loc_depth_within loc * Layer_unit_wt (loc_layer loc)))
      \/ (S (loc_index loc) = length (data p)
          /\ loc_depth_within loc = 0)).
Proof.
  unfold location. intro Hloc.
  destruct (resolve_wave_field wf) as [w|]; [|discriminate].
  cbn [bind] in Hloc.
  destruct (scan_layers (removelast (data p)) 0 d) as [[[i l] dw]|] eqn:Es.
  - cbn in Hloc. injection Hloc as <-. cbn.
    destruct (scan_layers_sound _ _ _ _ _ _ Es) as [j [Hi [Hj [Hc Hdw]]]].
    cbn in Hi. subst i.
    destruct (nth_error_removelast _ _ _ Hj) as [Hnth Hlen].
    split; [exact Hnth|]. left.
    destruct Hc as [Hlo Hhi]. unfold depth_base, depth, thickness in *.
    assert (H0 : 0 <= dw) by (subst dw; lra).
    assert (H1 : dw < _thickness l) by (subst dw; lra).
    split; [exact Hlen|]. split; [split; assumption|].
    split; [exact H0|]. split; [exact H1|].
    unfold Location_vert_stress, vert_stress. cbn.
    replace (Qle_bool dw (thickness l)) with true
      by (symmetry; apply Qle_bool_iff; unfold thickness; lra).
    reflexivity.
  - destruct (data p) as [|l0 ls] eqn:Edata; [discriminate|].
    cbn in Hloc. injection Hloc as <-. cbn [loc_index loc_layer
      loc_depth_within].
    split.
    + replace (length ls - 0)%nat with (length ls) by lia.
      apply nth_error_last.
    + right. split; [cbn; lia | reflexivity].
Qed.

(** X7: by index, [location] returns the layer at that index at offset
    zero; the index -1 is the halfspace; an index past the column raises
    [IndexError]. *)
Theorem location_by_index (p : Profile) (w : WaveField) :
  (forall k l,
     (0 <= k)%Z ->
     nth_error (data p) (Z.to_nat k) = Some l ->
     location p (inl w) None (Some k)
     = Ok {| loc_index := Z.to_nat k; loc_layer := l;
             loc_depth_within := 0; loc_wave_field := w |})
  /\ (forall front h,
        data p = front ++ [h] ->
        location p (inl w) None (Some (-1)%Z)
        = Ok {| loc_index := length front; loc_layer := h;
                loc_depth_within := 0; loc_wave_field := w |})
  /\ (forall k,
        (Z.of_nat (length (data p)) <= k)%Z ->
        location p (inl w) None (Some k) = Raise IndexError).
Proof.
  split; [|split].
  - intros k l Hk Hl.
    assert (Hlt : (Z.to_nat k < length (data p))%nat).
    { apply nth_error_Some. congruence. }
    unfold location, py_index. cbn [resolve_wave_field bind].
    replace (0 <=? k)%Z with true by (symmetry; apply Z.leb_le; lia).
    replace (k <? Z.of_nat (length (data p)))%Z with true
      by (symmetry; apply Z.ltb_lt; lia).
    rewrite Hl. reflexivity.
  - intros front h Hdata.
    unfold location, py_index. cbn [resolve_wave_field bind].
    rewrite Hdata, length_app. cbn [length].
    replace (0 <=? -1)%Z with false by reflexivity.
    replace (0 <=? -1 + Z.of_nat (length front + 1))%Z with true
      by (symmetry; apply Z.leb_le; lia).
    replace (Z.to_nat (-1 + Z.of_nat (length front + 1)))
      with (length front) by lia.
    rewrite nth_error_app2 by lia.
    replace (length front - length front)%nat with 0%nat by lia.
    reflexivity.
  - intros k Hk.
    unfold location, py_index. cbn [resolve_wave_field bind].
    replace (0 <=? k)%Z with true by (symmetry; apply Z.leb_le; lia).
    replace (k <? Z.of_nat (length (data p)))%Z with false
      by (symmetry; apply Z.ltb_ge; lia).
    reflexivity.
Qed.

(** X8: [location] takes a depth or an index, not both and not neither:
    either way it raises [NotImplementedError]; and a wave field given by a
    name the enumeration does not have raises [KeyError] before the depth
    or the index is looked at. *)
Theorem location_argument_errors (p : Profile) :
  (forall w d k,
     location p (inl w) (Some d) (Some k) = Raise NotImplementedError)
  /\ (forall w, location p (inl w) None None = Raise NotImplementedError)
  /\ (forall nm d k,
        wave_field_named nm = None ->
        location p (inr nm) d k = Raise KeyError).
Proof.
  split; [|split].
  - reflexivity.
  - reflexivity.
  - intros nm d k Hnm. unfold location, resolve_wave_field.
    rewrite Hnm. reflexivity.
Qed.

End LocateMore.

(** X6, at 12 m in the column of 10 m and 15 m. *)
Lemma location_offset_in_layer_witness :
  exists loc,
    @location rational_numerics motion_wave_fields (example_profile 0)
      (inr "within"%string) (Some 12) None = Ok loc
    /\ nth_error (data (example_profile 0)) (loc_index loc)
       = Some (loc_layer loc)
    /\ (((S (loc_index loc) < length (data (example_profile 0)))%nat
         /\ contains (loc_layer loc) 12
         /\ 0 <= loc_depth_within loc
         /\ loc_depth_within loc < thickness (loc_layer loc)
         /\ @Location_vert_stress rational_numerics motion_wave_fields
              loc false
            = Ok (_vert_stress (loc_layer loc)
                  + loc_depth_within loc * Layer_unit_wt (loc_layer loc)))
        \/ (S (loc_index loc) = length (data (example_profile 0))
            /\ loc_depth_within loc = 0)).
Proof.
  eexists. split; [vm_compute; reflexivity|].
  apply (@location_offset_in_layer rational_numerics motion_wave_fields
           (example_profile 0) (inr "within"%string) 12).
  vm_compute. reflexivity.
Defined.

(** X7, on the column of 10 m and 15 m: index 1 and index -1. *)
Lemma location_by_index_witness :
  exists l h,
    @location rational_numerics motion_wave_fields (example_profile 0)
      (inl outcrop) None (Some 1%Z)
    = Ok (@Build_Location motion_wave_fields (Z.to_nat 1) l 0 outcrop)
    /\ @location rational_numerics motion_wave_fields (example_profile 0)
         (inl outcrop) None (Some (-1)%Z)
       = Ok (@Build_Location motion_wave_fields 2 h 0 outcrop).
Proof.
  destruct (@location_by_index rational_numerics motion_wave_fields
              (example_profile 0) outcrop) as [Hk [Hlast _]].
  eexists. eexists. split.
  - apply Hk; [lia | reflexivity].
  - eapply (Hlast (firstn 2 (data (example_profile 0)))). reflexivity.
Defined.

(** X8, with a name the enumeration does not have. *)
Lemma location_argument_errors_witness :
  @location rational_numerics motion_wave_fields (example_profile 0)
    (inr "surface"%string) (Some 12) None = Raise KeyError.
Proof.
  apply (proj2 (proj2 (@location_argument_errors rational_numerics
                         motion_wave_fields (example_profile 0)))).
  reflexivity.
Defined.

(** ** Further properties of the convergence tracking *)

Lemma relative_error_of_numbers_py (p v : Q) :
  ~ v == 0 ->
  exists e,
    relative_error {| _value := PyNum v; _previous := PyNum p |} = Ok (Fin e)
    /\ e == 100 * ((p - v) / v).
Proof.
  intro Hv. apply Qeqb_neq in Hv.
  unfold relative_error, relative_error_body, py_sub, py_div, py_binop.
  cbn. rewrite Hv. cbn. eexists. split; reflexivity.
Qed.

(** The relative error between two numbers of the same kind. *)
Lemma relative_error_numbers (p v : Q) :
  relative_error {| _value := PyNum v; _previous := PyNum p |}
  = (if Qeqb v 0 then Ok PInf else Ok (Fin (100 * ((p - v) / v))))
  /\ relative_error {| _value := NpNum (Fin v); _previous := NpNum (Fin p) |}
     = Ok (np_mul (Fin 100) (np_div (Fin (p - v)) (Fin v))).
Proof.
  unfold relative_error, relative_error_body, py_sub, py_div, py_binop.
  cbn. split.
  - destruct (Qeqb v 0); reflexivity.
  - reflexivity.
Qed.

(** X9: between two Python numbers, the relative error is
    [100 * (previous - value) / value], and infinite when the value is zero
    (the [ZeroDivisionError] is caught).  Between two numpy scalars it is
    the same number when the value is not zero; when the value is zero no
    exception is raised and the result is NaN for a zero previous value,
    plus infinity for a positive one and minus infinity for a negative
    one. *)
Theorem relative_error_of_numbers (p v : Q) :
  let py := {| _value := PyNum v; _previous := PyNum p |} in
  let np := {| _value := NpNum (Fin v); _previous := NpNum (Fin p) |} in
  relative_error py
  = (if Qeqb v 0 then Ok PInf else Ok (Fin (100 * ((p - v) / v))))
  /\ (~ v == 0 -> relative_error np = Ok (Fin (100 * ((p - v) / v))))
  /\ (v == 0 -> p == 0 -> relative_error np = Ok NaN)
  /\ (v == 0 -> 0 < p -> relative_error np = Ok PInf)
  /\ (v == 0 -> p < 0 -> relative_error np = Ok NInf).
Proof.
  intros py np.
  destruct (relative_error_numbers p v) as [Hpy Hnp].
  split; [exact Hpy|].
  unfold np. rewrite Hnp. unfold np_div.
  split; [|split; [|split]].
  - intro Hv. apply Qeqb_neq in Hv. rewrite Hv. reflexivity.
  - intros Hv Hp. apply Qeqb_eq in Hv. rewrite Hv.
    replace (Qeqb (p - v) 0) with true; [reflexivity|].
    symmetry. apply Qeqb_eq. apply Qeqb_eq in Hv. lra.
  - intros Hv Hp. apply Qeqb_eq in Hv. rewrite Hv.
    apply Qeqb_eq in Hv.
    replace (Qeqb (p - v) 0) with false
      by (symmetry; apply Qeqb_neq; lra).
    replace (Qltb 0 (p - v)) with true
      by (symmetry; apply Qltb_lt; lra).
    reflexivity.
  - intros Hv Hp. apply Qeqb_eq in Hv. rewrite Hv.
    apply Qeqb_eq in Hv.
    replace (Qeqb (p - v) 0) with false
      by (symmetry; apply Qeqb_neq; lra).
    replace (Qltb 0 (p - v)) with false
      by (symmetry; apply Qltb_ge; lra).
    reflexivity.
Qed.

(** X9, on a value of 2 after 3, and on a zero value after 0, 5 and -5. *)
Lemma relative_error_of_numbers_witness :
  relative_error {| _value := NpNum (Fin 2); _previous := NpNum (Fin 3) |}
  = Ok (Fin (100 * ((3 - 2) / 2)))
  /\ relative_error {| _value := NpNum (Fin 0); _previous := NpNum (Fin 0) |}
     = Ok NaN
  /\ relative_error {| _value := NpNum (Fin 0); _previous := NpNum (Fin 5) |}
     = Ok PInf
  /\ relative_error
       {| _value := NpNum (Fin 0); _previous := NpNum (Fin (-5)) |}
     = Ok NInf
  /\ relative_error {| _value := PyNum 0; _previous := PyNum 5 |} = Ok PInf.
Proof.
  split; [|split; [|split; [|split]]].
  - apply (proj1 (proj2 (relative_error_of_numbers 3 2))).
    intro H. vm_compute in H. discriminate.
  - apply (proj1 (proj2 (proj2 (relative_error_of_numbers 0 0))));
      reflexivity.
  - apply (proj1 (proj2 (proj2 (proj2 (relative_error_of_numbers 5 0)))));
      reflexivity.
  - apply (proj2 (proj2 (proj2 (proj2 (relative_error_of_numbers (-5) 0)))));
      reflexivity.
  - exact (proj1 (relative_error_of_numbers 5 0)).
Defined.

(** X10: the relative error is signed: when a positive value has grown
    since the previous iteration, the error is negative, however large the
    change. *)
Theorem relative_error_signed (p v : Q) :
  0 < v -> p < v ->
  exists e,
    relative_error {| _value := PyNum v; _previous := PyNum p |} = Ok (Fin e)
    /\ e < 0.
Proof.
  intros Hv Hp.
  destruct (relative_error_of_numbers_py p v) as [e [He Hval]];
    [lra|].
  exists e. split; [exact He|].
  assert (Hinv : 0 < (v - p) * / v).
  { apply Qmult_lt_0_compat; [lra | apply Qinv_lt_0_compat; exact Hv]. }
  assert (E : e == - (100 * ((v - p) * / v))) by (rewrite Hval; field; lra).
  lra.
Qed.

(** X10, with a modulus that doubled from 50 to 100. *)
Lemma relative_error_signed_witness :
  exists e,
    relative_error {| _value := PyNum 100; _previous := PyNum 50 |}
    = Ok (Fin e)
    /\ e < 0.
Proof.
  apply (relative_error_signed 50 100); vm_compute; reflexivity.
Defined.

Section LayerProperties.
Context `{N : Numerics}.

Lemma damping_min_linear (st : SoilType) :
  is_curve (damping st) = false ->
  damping_min st = Ok (field_value (damping st)).
Proof.
  unfold damping_min. destruct (damping st); [reflexivity | reflexivity|].
  discriminate.
Qed.

(** The layer a linear soil type gives, and what one strain assignment
    makes of it. *)
Lemma linear_layer_states (st : SoilType) (thick vel s : Q) :
  is_nonlinear st = false ->
  let l0 := bare_layer st thick vel in
  let l := with_iteration l0
             (IterativeValue_init (PyNum (initial_shear_mod l0)))
             (IterativeValue_init (field_value (damping st)))
             (StrainIter (IterativeValue_init PyNone)) in
  Layer_init st thick vel = Ok l
  /\ set_strain l s
     = Ok (with_iteration l
             {| _value := PyNum (initial_shear_mod l0 * 1);
                _previous := PyNum (initial_shear_mod l0) |}
             {| _value := field_value (damping st);
                _previous := field_value (damping st) |}
             (StrainRaw (PyNum s))).
Proof.
  intros Hlin l0 l.
  destruct (is_nonlinear_false _ Hlin) as [Hm Hd].
  split.
  - unfold Layer_init, Layer_reset. cbn [soil_type _soil_type].
    rewrite (damping_min_linear _ Hd). reflexivity.
  - unfold set_strain. change (soil_type l) with st. rewrite Hlin.
    rewrite (call_or_not_curve _ _ _ Hm), (call_or_not_curve _ _ _ Hd).
    reflexivity.
Qed.

(** X11: a layer of a linear soil type with a positive initial shear
    modulus and a positive constant damping reports no error after a strain
    assignment: the solver sees it as converged at once. *)
Theorem linear_layer_converged (st : SoilType) (thick vel s q : Q)
  (l : Layer) :
  Layer_init st thick vel = Ok l ->
  mod_reduc st = PNone ->
  damping st = PScalar q ->
  0 < initial_shear_mod l ->
  0 < q ->
  exists l' e,
    set_strain l s = Ok l' /\ max_error l' = Ok e /\ is_zero e.
Proof.
  intros Hl Hm Hd Hpos Hq.
  assert (Hlin : is_nonlinear st = false).
  { unfold is_nonlinear. cbn. rewrite Hm, Hd. reflexivity. }
  destruct (linear_layer_states st thick vel s Hlin) as [Hi Hs].
  rewrite Hl in Hi. injection Hi as ->.
  change (initial_shear_mod (with_iteration _ _ _ _))
    with (initial_shear_mod (bare_layer st thick vel)) in Hpos.
  set (m := initial_shear_mod (bare_layer st thick vel)) in *.
  rewrite Hs. rewrite Hd. cbn [field_value].
  assert (Hm1 : Qeqb (m * 1) 0 = false) by (apply Qeqb_neq; lra).
  assert (Hq0 : Qeqb q 0 = false) by (apply Qeqb_neq; lra).
  eexists. exists (py_max (Fin (100 * ((m - m * 1) / (m * 1))))
                     (Fin (100 * ((q - q) / q)))).
  split; [reflexivity|]. split.
  - unfold max_error, shear_mod, Layer_damping.
    cbn [_shear_mod _damping with_iteration].
    rewrite (proj1 (relative_error_numbers m (m * 1))), Hm1.
    rewrite (proj1 (relative_error_numbers q q)), Hq0.
    reflexivity.
  - apply py_max_zero; cbn; field; lra.
Qed.

(** A layer of a linear soil type after at least one strain assignment:
    the shear modulus holds the initial modulus and some earlier number,
    the damping twice the constant of the soil type. *)
Lemma linear_state_step (st : SoilType) (thick vel p s0 s : Q) :
  is_nonlinear st = false ->
  let l0 := bare_layer st thick vel in
  set_strain
    (with_iteration l0
       {| _value := PyNum (initial_shear_mod l0 * 1);
          _previous := PyNum p |}
       {| _value := field_value (damping st);
          _previous := field_value (damping st) |}
       (StrainRaw (PyNum s0))) s
  = Ok (with_iteration l0
          {| _value := PyNum (initial_shear_mod l0 * 1);
             _previous := PyNum (initial_shear_mod l0 * 1) |}
          {| _value := field_value (damping st);
             _previous := field_value (damping st) |}
          (StrainRaw (PyNum s))).
Proof.
  intros Hlin l0.
  destruct (is_nonlinear_false _ Hlin) as [Hm Hd].
  unfold set_strain.
  change (soil_type (with_iteration l0 _ _ _)) with st. rewrite Hlin.
  rewrite (call_or_not_curve _ _ _ Hm), (call_or_not_curve _ _ _ Hd).
  reflexivity.
Qed.

Lemma linear_state_all (st : SoilType) (thick vel : Q) (ss : list Q) :
  is_nonlinear st = false ->
  let l0 := bare_layer st thick vel in
  forall p s0,
  exists p' s',
    set_strain_all
      (with_iteration l0
         {| _value := PyNum (initial_shear_mod l0 * 1);
            _previous := PyNum p |}
         {| _value := field_value (damping st);
            _previous := field_value (damping st) |}
         (StrainRaw (PyNum s0))) ss
    = Ok (with_iteration l0
            {| _value := PyNum (initial_shear_mod l0 * 1);
               _previous := PyNum p' |}
            {| _value := field_value (damping st);
               _previous := field_value (damping st) |}
            (StrainRaw (PyNum s'))).
Proof.
  intros Hlin. cbv zeta.
  induction ss as [|s rest IH]; intros p s0.
  - exists p, s0. reflexivity.
  - cbn [set_strain_all].
    rewrite (linear_state_step st thick vel p s0 s Hlin). cbn [bind].
    apply IH.
Qed.

(** X12: a layer of a linear soil type of zero unit weight (the default of
    [SoilType]) has a zero initial shear modulus, holds a zero shear
    modulus from its construction on, and reports an infinite error after
    every strain assignment, however many are made: it never converges. *)
Theorem zero_unit_weight_never_converges (st : SoilType)
  (thick vel s : Q) (ss : list Q) (l : Layer) :
  Layer_init st thick vel = Ok l ->
  is_nonlinear st = false ->
  unit_wt st == 0 ->
  initial_shear_mod l == 0
  /\ (exists m0, value (shear_mod l) = PyNum m0 /\ m0 == 0)
  /\ exists l' m,
       set_strain_all l (s :: ss) = Ok l'
       /\ value (shear_mod l') = PyNum m
       /\ m == 0
       /\ max_error l' = Ok PInf.
Proof.
  intros Hl Hlin Hu.
  destruct (linear_layer_states st thick vel s Hlin) as [Hi Hs].
  rewrite Hl in Hi. injection Hi as ->.
  set (m := initial_shear_mod (bare_layer st thick vel)) in *.
  assert (Hm : m == 0).
  { unfold m, initial_shear_mod, Layer_density, density, soil_type.
    cbn [bare_layer _soil_type initial_shear_vel _initial_shear_vel].
    rewrite Hu. unfold Qdiv. ring. }
  assert (Hm0 : m * 1 == 0) by (rewrite Hm; ring).
  split; [exact Hm|].
  split; [exists m; split; [reflexivity | exact Hm]|].
  cbn [set_strain_all]. rewrite Hs. cbn [bind].
  destruct (linear_state_all st thick vel ss Hlin m s) as [p' [s' Hall]].
  fold m in Hall.
  eexists. exists (m * 1). split; [exact Hall|].
  split; [reflexivity|]. split; [exact Hm0|].
  apply Qeqb_eq in Hm0.
  unfold max_error, shear_mod, Layer_damping.
  cbn [_shear_mod _damping with_iteration].
  rewrite (proj1 (relative_error_numbers p' (m * 1))), Hm0.
  cbn [bind].
  destruct (is_nonlinear_false _ Hlin) as [_ Hd].
  destruct (damping st) as [|q|c]; [| |discriminate]; cbn [field_value].
  - reflexivity.
  - rewrite (proj1 (relative_error_numbers q q)).
    destruct (Qeqb q 0); reflexivity.
Qed.

(** X13: [reset] undoes strain assignments: after an assignment it gives
    what it gave before, and on a layer that was just constructed it gives
    the layer back. *)
Theorem reset_after_strain :
  (forall l s l1, set_strain l s = Ok l1 -> Layer_reset l1 = Layer_reset l)
  /\ (forall st thick vel l,
        Layer_init st thick vel = Ok l -> Layer_reset l = Ok l)
  /\ (forall st thick vel l s l1,
        Layer_init st thick vel = Ok l -> set_strain l s = Ok l1 ->
        Layer_reset l1 = Ok l).
Proof.
  assert (H1 : forall l s l1,
             set_strain l s = Ok l1 -> Layer_reset l1 = Layer_reset l).
  { intros l s l1. unfold set_strain. intro Hs.
    destruct (if is_nonlinear (soil_type l)
              then match _strain l with
                   | StrainIter iv =>
                       Ok (StrainIter (set_value iv (PyNum s)))
                   | StrainRaw _ => Raise AttributeError
                   end
              else Ok (StrainRaw (PyNum s))) as [sf|]; [|discriminate].
    cbn [bind] in Hs.
    destruct (call_or (mod_reduc (soil_type l)) s (PyNum 1)) as [mr|];
      [|discriminate]. cbn [bind] in Hs.
    destruct (py_mul (PyNum (initial_shear_mod l)) mr) as [sm|];
      [|discriminate]. cbn [bind] in Hs.
    destruct (call_or (damping (soil_type l)) s
                (field_value (damping (soil_type l)))) as [dm|];
      [|discriminate]. cbn [bind] in Hs.
    injection Hs as <-. reflexivity. }
  assert (H2 : forall st thick vel l,
             Layer_init st thick vel = Ok l -> Layer_reset l = Ok l).
  { intros st thick vel l. unfold Layer_init, Layer_reset.
    cbn [soil_type bare_layer _soil_type].
    destruct (damping_min st) as [dmin|] eqn:Ed; [|discriminate].
    cbn [bind]. intro Hl. injection Hl as <-.
    cbn [soil_type with_iteration _soil_type]. rewrite Ed. reflexivity. }
  split; [exact H1|]. split; [exact H2|].
  intros st thick vel l s l1 Hl Hs.
  rewrite (H1 _ _ _ Hs). exact (H2 _ _ _ _ Hl).
Qed.

(** X14: a curve whose interpolater was never built is not reported: the
    strain setter swallows the [TypeError] of calling it.  The shear
    modulus is then left unreduced, the damping value becomes the curve
    object itself, and the failure only shows as a [TypeError] when the
    relative error of the damping is read. *)
Theorem unbuilt_curves_fall_back (l : Layer) (s : Q) (iv : IterativeValue)
  (cm cd : NonlinearProperty) :
  _strain l = StrainIter iv ->
  mod_reduc (soil_type l) = PCurve cm ->
  damping (soil_type l) = PCurve cd ->
  _interpolater cm = None ->
  _interpolater cd = None ->
  value (Layer_damping l) <> PyNone ->
  (exists m, value (shear_mod l) = PyNum m) ->
  exists l',
    set_strain l s = Ok l'
    /\ value (shear_mod l') = PyNum (initial_shear_mod l * 1)
    /\ value (Layer_damping l') = PyCurve cd
    /\ relative_error (Layer_damping l') = Raise TypeError
    /\ max_error l' = Raise TypeError.
Proof.
  intros Hs Hm Hd Him Hid Hprev [m0 Hm0].
  unfold set_strain, is_nonlinear. rewrite Hm, Hd, Hs.
  cbn [existsb is_curve orb bind].
  unfold call_or, call_field, NonlinearProperty_call. rewrite Him, Hid.
  cbn [bind field_value]. unfold py_mul, py_binop. cbn [bind].
  eexists. split; [reflexivity|].
  cbn [shear_mod Layer_damping _shear_mod _damping with_iteration value
       set_value _value].
  split; [reflexivity|]. split; [reflexivity|].
  assert (Hrel : relative_error
                   {| _value := PyCurve cd;
                      _previous := _value (_damping l) |}
                 = Raise TypeError).
  { unfold value, Layer_damping in Hprev.
    unfold relative_error, relative_error_body, py_sub, py_binop.
    cbn [previous value _previous _value].
    destruct (_value (_damping l)); try reflexivity. congruence. }
  split; [exact Hrel|].
  unfold max_error, shear_mod, Layer_damping.
  cbn [_shear_mod _damping with_iteration].
  unfold set_value at 2. rewrite Hrel.
  destruct (relative_error
              (set_value (_shear_mod l) (PyNum (initial_shear_mod l * 1))))
    as [a|e] eqn:Ea; [reflexivity|].
  exfalso. revert Ea.
  unfold relative_error, relative_error_body, set_value, py_sub, py_div,
    py_binop.
  cbn [previous value _previous _value].
  unfold value, shear_mod in Hm0. rewrite Hm0. cbn.
  destruct (Qeqb (initial_shear_mod l * 1) 0); cbn; discriminate.
Qed.

End LayerProperties.

(** X11, on the elastic layer of the scenario at a strain of 0.001. *)
Lemma linear_layer_converged_witness :
  exists l' e,
    @set_strain rational_numerics elastic_layer 0.001 = Ok l'
    /\ max_error l' = Ok e /\ is_zero e.
Proof.
  apply (@linear_layer_converged rational_numerics elastic_soil 10 200
           0.001 0.02 elastic_layer).
  - reflexivity.
  - reflexivity.
  - reflexivity.
  - vm_compute. reflexivity.
  - vm_compute. reflexivity.
Defined.

(** X12, on a layer of the soil type of zero unit weight, after one and
    after three strain assignments. *)
Lemma zero_unit_weight_never_converges_witness :
  (exists l' m,
     @set_strain_all rational_numerics weightless_layer [0.001] = Ok l'
     /\ value (shear_mod l') = PyNum m
     /\ m == 0
     /\ max_error l' = Ok PInf)
  /\ (exists l' m,
        @set_strain_all rational_numerics weightless_layer
          [0.001; 0.002; 0.002] = Ok l'
        /\ value (shear_mod l') = PyNum m
        /\ m == 0
        /\ max_error l' = Ok PInf).
Proof.
  split.
  - apply (proj2 (proj2
             (@zero_unit_weight_never_converges rational_numerics
                weightless_soil 10 200 0.001 [] weightless_layer
                eq_refl eq_refl eq_refl))).
  - apply (proj2 (proj2
             (@zero_unit_weight_never_converges rational_numerics
                weightless_soil 10 200 0.001 [0.002; 0.002]
                weightless_layer eq_refl eq_refl eq_refl))).
Defined.

(** X13, on the elastic layer of the scenario after one strain
    assignment. *)
Lemma reset_after_strain_witness :
  exists l1,
    @set_strain rational_numerics elastic_layer 0.001 = Ok l1
    /\ @Layer_reset rational_numerics l1 = Ok elastic_layer.
Proof.
  eexists. split; [reflexivity|].
  apply (proj2 (proj2 (@reset_after_strain rational_numerics))
           elastic_soil 10 200 elastic_layer 0.001); reflexivity.
Defined.

(** X14, on a layer whose two curves hold two strains and one value. *)
Lemma unbuilt_curves_fall_back_witness :
  exists l',
    @set_strain rational_numerics unbuilt_layer 0.005 = Ok l'
    /\ value (shear_mod l')
       = PyNum (@initial_shear_mod rational_numerics unbuilt_layer * 1)
    /\ value (Layer_damping l') = PyCurve unbuilt_curve
    /\ relative_error (Layer_damping l') = Raise TypeError
    /\ max_error l' = Raise TypeError.
Proof.
  apply (@unbuilt_curves_fall_back rational_numerics unbuilt_layer 0.005
           (IterativeValue_init PyNone) unbuilt_curve unbuilt_curve).
  - reflexivity.
  - reflexivity.
  - reflexivity.
  - reflexivity.
  - reflexivity.
  - discriminate.
  - eexists. reflexivity.
Defined.

(** ** Further properties of the curves *)

Lemma nondecreasing_first (l : list Q) (v0 v : Q) :
  nondecreasing l -> hd_error l = Some v0 -> In v l -> v0 <= v.
Proof.
  intros Hl H0 Hin.
  apply In_nth_error in Hin. destruct Hin as [k Hk].
  destruct l as [|x rest]; [discriminate|].
  cbn in H0. injection H0 as ->.
  destruct k as [|k].
  - cbn in Hk. injection Hk as ->. lra.
  - apply (Hl 0%nat (S k) v0 v); [lia | reflexivity | exact Hk].
Qed.

(** When every value is finite, the values are their rational numbers. *)
Lemma finite_values_map (l : list npfloat) :
  forall vs, finite_values l = Some vs -> l = map Fin vs.
Proof.
  induction l as [|x rest IH]; intros vs Hvs; cbn in Hvs.
  - injection Hvs as <-. reflexivity.
  - destruct x as [q| | |]; try discriminate.
    destruct (finite_values rest) as [qs|]; [|discriminate].
    injection Hvs as <-. cbn. rewrite (IH qs eq_refl). reflexivity.
Qed.

Lemma finite_nondecreasing (vs : list Q) :
  nondecreasing_or_nan (map Fin vs) -> nondecreasing vs.
Proof.
  intros Hl j k vj vk Hjk Hj Hk.
  destruct (Hl j k (Fin vj) (Fin vk) Hjk) as [Hn|Hle].
  - rewrite nth_error_map, Hj. reflexivity.
  - rewrite nth_error_map, Hk. reflexivity.
  - discriminate.
  - apply np_leb_fin. exact Hle.
Qed.

Section CurveProperties.
Context `{N : Numerics}.

Lemma update_builds (p : NonlinearProperty) :
  _strains p <> [] ->
  length (_strains p) = length (_values p) ->
  exists ip, _interpolater (_update p) = Some ip.
Proof.
  intros Hne Hlen. unfold _update.
  replace (Nat.eqb (length (_strains p)) 0) with false.
  - rewrite Hlen, Nat.eqb_refl. cbn. eexists. reflexivity.
  - symmetry. apply Nat.eqb_neq. destruct (_strains p); [congruence|].
    discriminate.
Qed.

Lemma update_leaves (p : NonlinearProperty) :
  _strains p = [] \/ length (_strains p) <> length (_values p) ->
  _update p = p.
Proof.
  intros Hbad. unfold _update.
  destruct Hbad as [Hnil | Hlen].
  - rewrite Hnil. reflexivity.
  - replace (Nat.eqb (length (_strains p)) (length (_values p)))
      with false by (symmetry; apply Nat.eqb_neq; exact Hlen).
    rewrite andb_false_r. reflexivity.
Qed.

(** X15: no [MenqSoilType] can be built.  Its constructor runs the parent
    constructor first, which calls the overridden [_calc_strain_ref]; that
    reads [_uniformity_coeff], assigned only after the parent constructor
    returns, and the read raises [AttributeError]. *)
Theorem MenqSoilType_raises (nm : string)
  (uw uniformity_coeff diam_mean mean_stress num_cycles : Q)
  (strains : list Q) :
  MenqSoilType nm uw uniformity_coeff diam_mean mean_stress num_cycles
    strains = Raise AttributeError.
Proof. reflexivity. Qed.

Lemma py_pow_positive (x y : Q) :
  0 < x -> ~ y == 0 -> py_pow x y = Ok (s_num (pow x y)).
Proof.
  intros Hx Hy. unfold py_pow.
  apply Qeqb_neq in Hy. rewrite Hy.
  apply Qltb_lt in Hx. rewrite Hx. reflexivity.
Qed.

Lemma py_pow_zero_positive (x y : Q) :
  x == 0 -> 0 < y -> py_pow x y = Ok (s_num 0).
Proof.
  intros Hx Hy. unfold py_pow.
  replace (Qeqb y 0) with false by (symmetry; apply Qeqb_neq; lra).
  replace (Qltb 0 x) with false by (symmetry; apply Qltb_ge; lra).
  replace (Qeqb x 0) with true by (symmetry; apply Qeqb_eq; exact Hx).
  replace (Qltb y 0) with false by (symmetry; apply Qltb_ge; lra).
  reflexivity.
Qed.

Lemma py_pow_zero_negative (x y : Q) :
  x == 0 -> y < 0 -> py_pow x y = Raise ZeroDivisionError.
Proof.
  intros Hx Hy. unfold py_pow.
  replace (Qeqb y 0) with false by (symmetry; apply Qeqb_neq; lra).
  replace (Qltb 0 x) with false by (symmetry; apply Qltb_ge; lra).
  replace (Qeqb x 0) with true by (symmetry; apply Qeqb_eq; exact Hx).
  replace (Qltb y 0) with true by (symmetry; apply Qltb_lt; exact Hy).
  reflexivity.
Qed.

(** A power of a number that is not negative, under a positive exponent, is
    a float. *)
Lemma py_pow_nonnegative (x y : Q) :
  0 <= x -> 0 < y -> exists v, py_pow x y = Ok (SFloat v).
Proof.
  intros Hx Hy.
  destruct (Qlt_le_dec 0 x) as [Hpos|Hle].
  - rewrite py_pow_positive; [eexists; reflexivity | exact Hpos | lra].
  - rewrite py_pow_zero_positive; [eexists; reflexivity | lra | exact Hy].
Qed.

Ltac literal := vm_compute; first [reflexivity | discriminate].

Ltac nonzero := let H := fresh in intro H; vm_compute in H; discriminate.

(** The curves of a built empirical soil type hold the grid and one value
    per strain, under their two tags. *)
Lemma built_curves cls o nm uw nc strains e :
  DarendeliSoilType_init cls o nm uw nc strains = Ok (Built e) ->
  es_name e = nm /\ es_unit_wt e = uw
  /\ fc_strains (es_mod_reduc e) = strains
  /\ fc_strains (es_damping e) = strains
  /\ length (fc_values (es_mod_reduc e)) = length strains
  /\ length (fc_values (es_damping e)) = length strains
  /\ fc_param (es_mod_reduc e) = Some "mod_reduc"%string
  /\ fc_param (es_damping e) = Some "damping"%string.
Proof.
  intro He.
  destruct (init_built _ _ _ _ _ _ _ He)
    as [sr [cv [dmin [lab [_ [_ [_ ->]]]]]]].
  cbn [es_name es_unit_wt es_mod_reduc es_damping fc_strains fc_values
       fc_param].
  repeat (split; [reflexivity|]).
  split.
  - unfold modulus_reduction. apply length_map.
  - split; [|split; reflexivity].
    rewrite length_map, length_maximum_accumulate.
    apply length_computed_damping.
Qed.

(** The soil type of a built empirical soil type whose values are all
    finite: two curves over the grid, with the finite values. *)
Lemma soil_type_of_built (e : EmpiricalSoilType) (st : SoilType) :
  soil_type_of e = Some st ->
  exists cm cd,
    st = SoilType_init (es_name e) (es_unit_wt e) (PCurve cm) (PCurve cd)
    /\ _strains cm = fc_strains (es_mod_reduc e)
    /\ _strains cd = fc_strains (es_damping e)
    /\ fc_values (es_mod_reduc e) = map Fin (_values cm)
    /\ fc_values (es_damping e) = map Fin (_values cd)
    /\ cm = _update cm /\ cd = _update cd.
Proof.
  unfold soil_type_of, as_property. intro Hst.
  destruct (finite_values (fc_values (es_mod_reduc e))) as [vm|] eqn:Em;
    [|discriminate].
  destruct (finite_values (fc_values (es_damping e))) as [vd|] eqn:Ed;
    [|discriminate].
  injection Hst as <-.
  eexists. eexists. split; [reflexivity|].
  match goal with
  | |- _strains (_update ?a) = _ /\ _strains (_update ?b) = _ /\ _ =>
      destruct (update_keeps a) as [_ [Ha1 [Ha2 _]]];
      destruct (update_keeps b) as [_ [Hb1 [Hb2 _]]]
  end.
  split; [rewrite Ha1; reflexivity|]. split; [rewrite Hb1; reflexivity|].
  split; [rewrite Ha2; exact (finite_values_map _ _ Em)|].
  split; [rewrite Hb2; exact (finite_values_map _ _ Ed)|].
  split.
  - unfold _update at 2. cbn [_strains _values name _param].
    unfold _update.
    cbn [_strains _values name _param _interpolater].
    destruct (negb (Nat.eqb (length (fc_strains (es_mod_reduc e))) 0)
              && Nat.eqb (length (fc_strains (es_mod_reduc e)))
                   (length vm)) eqn:E;
      cbn [_strains _values name _param _interpolater]; rewrite ?E;
      reflexivity.
  - unfold _update at 2. cbn [_strains _values name _param].
    unfold _update.
    cbn [_strains _values name _param _interpolater].
    destruct (negb (Nat.eqb (length (fc_strains (es_damping e))) 0)
              && Nat.eqb (length (fc_strains (es_damping e)))
                   (length vd)) eqn:E;
      cbn [_strains _values name _param _interpolater]; rewrite ?E;
      reflexivity.
Qed.

(** X16: what [DarendeliSoilType(...)] does, by the signs of the
    overconsolidation ratio and of the mean stress.  When both are positive
    the object is built: it keeps the name and the unit weight, both curves
    hold the strain grid given and one value per strain, under the tags
    [mod_reduc] and [damping]; and when all their values are finite the
    soil type is nonlinear and, on a non-empty grid, both curves have their
    interpolater.  When one of the two is zero and the other is not
    negative, the constructor raises [ZeroDivisionError]: the minimum
    damping raises zero to a negative power. *)
Theorem darendeli_construction (nm : string)
  (uw plas_index ocr mean_stress freq num_cycles : Q) (strains : list Q) :
  (0 < ocr -> 0 < mean_stress * KPA_TO_ATM ->
   exists e,
     DarendeliSoilType nm uw plas_index ocr mean_stress freq num_cycles
       strains = Ok (Built e)
     /\ es_name e = nm /\ es_unit_wt e = uw
     /\ fc_strains (es_mod_reduc e) = strains
     /\ fc_strains (es_damping e) = strains
     /\ length (fc_values (es_mod_reduc e)) = length strains
     /\ length (fc_values (es_damping e)) = length strains
     /\ fc_param (es_mod_reduc e) = Some "mod_reduc"%string
     /\ fc_param (es_damping e) = Some "damping"%string
     /\ forall st,
          soil_type_of e = Some st ->
          is_nonlinear st = true
          /\ unit_wt st = uw
          /\ exists cm cd,
               mod_reduc st = PCurve cm /\ damping st = PCurve cd
               /\ _strains cm = strains /\ _strains cd = strains
               /\ length (_values cm) = length strains
               /\ length (_values cd) = length strains
               /\ (strains <> [] ->
                   (exists ip, _interpolater cm = Some ip)
                   /\ (exists ip, _interpolater cd = Some ip)))
  /\ (ocr == 0 -> 0 <= mean_stress * KPA_TO_ATM ->
      DarendeliSoilType nm uw plas_index ocr mean_stress freq num_cycles
        strains = Raise ZeroDivisionError)
  /\ (0 < ocr -> mean_stress * KPA_TO_ATM == 0 ->
      DarendeliSoilType nm uw plas_index ocr mean_stress freq num_cycles
        strains = Raise ZeroDivisionError).
Proof.
  split; [|split].
  - intros Hocr Hms.
    destruct (DarendeliSoilType nm uw plas_index ocr mean_stress freq
                num_cycles strains) as [[e|]|ex] eqn:Ee.
    + exists e. split; [reflexivity|].
      destruct (built_curves _ _ _ _ _ _ _ Ee)
        as [H1 [H2 [H3 [H4 [H5 [H6 [H7 H8]]]]]]].
      repeat (split; [assumption|]).
      intros st Hst.
      destruct (soil_type_of_built e st Hst)
        as [cm [cd [-> [Hsm [Hsd [Hvm [Hvd [Hum Hud]]]]]]]].
      split; [reflexivity|]. split; [exact H2|].
      exists cm, cd.
      assert (Hlm : length (_values cm) = length strains).
      { rewrite <- H5, Hvm, length_map. reflexivity. }
      assert (Hld : length (_values cd) = length strains).
      { rewrite <- H6, Hvd, length_map. reflexivity. }
      split; [reflexivity|]. split; [reflexivity|].
      split; [rewrite Hsm; exact H3|]. split; [rewrite Hsd; exact H4|].
      split; [exact Hlm|]. split; [exact Hld|].
      intro Hne. split.
      * rewrite Hum. apply update_builds.
        -- rewrite Hsm, H3. exact Hne.
        -- rewrite Hsm, H3, Hlm. reflexivity.
      * rewrite Hud. apply update_builds.
        -- rewrite Hsd, H4. exact Hne.
        -- rewrite Hsd, H4, Hld. reflexivity.
    + exfalso. revert Ee.
      unfold DarendeliSoilType, DarendeliSoilType_init, _calc_strain_ref,
        _calc_curvature, _calc_damping_min, _nlp_name.
      cbn [_ocr _mean_stress _plas_index _freq].
      rewrite !py_pow_positive by (first [assumption | nonzero]).
      cbn. discriminate.
    + exfalso. revert Ee.
      unfold DarendeliSoilType, DarendeliSoilType_init, _calc_strain_ref,
        _calc_curvature, _calc_damping_min, _nlp_name.
      cbn [_ocr _mean_stress _plas_index _freq].
      rewrite !py_pow_positive by (first [assumption | nonzero]).
      cbn. discriminate.
  - intros Hocr Hms.
    unfold DarendeliSoilType, DarendeliSoilType_init, _calc_strain_ref,
      _calc_curvature, _calc_damping_min, _nlp_name.
    cbn [_ocr _mean_stress _plas_index _freq].
    rewrite (py_pow_zero_positive ocr 0.3246 Hocr) by literal.
    destruct (py_pow_nonnegative (mean_stress * KPA_TO_ATM) 0.3483 Hms)
      as [v Hv]; [literal|].
    rewrite Hv.
    rewrite (py_pow_zero_negative ocr (-0.1069) Hocr) by literal.
    reflexivity.
  - intros Hocr Hms.
    unfold DarendeliSoilType, DarendeliSoilType_init, _calc_strain_ref,
      _calc_curvature, _calc_damping_min, _nlp_name.
    cbn [_ocr _mean_stress _plas_index _freq].
    rewrite !(py_pow_positive ocr) by (first [assumption | nonzero]).
    rewrite (py_pow_zero_positive _ 0.3483 Hms) by literal.
    rewrite (py_pow_zero_negative _ (-0.2889) Hms) by literal.
    reflexivity.
Qed.


(** X17: for a [DarendeliSoilType] built over a non-empty strain grid with
    finite values throughout, the damping curve of the soil type never
    decreases along the grid, [damping_min] is its first value, a finite
    number, and no value of the curve is below it. *)
Theorem damping_min_is_minimum (nm : string)
  (uw plas_index ocr mean_stress freq num_cycles : Q) (strains : list Q)
  (e : EmpiricalSoilType) (st : SoilType) :
  strains <> [] ->
  DarendeliSoilType nm uw plas_index ocr mean_stress freq num_cycles
    strains = Ok (Built e) ->
  soil_type_of e = Some st ->
  exists cd d0,
    damping st = PCurve cd
    /\ _strains cd = strains
    /\ fc_values (es_damping e) = map Fin (_values cd)
    /\ nondecreasing (_values cd)
    /\ hd_error (_values cd) = Some d0
    /\ es_damping_min e = Ok (Fin d0)
    /\ damping_min st = Ok (NpNum (Fin d0))
    /\ (forall v, In v (_values cd) -> d0 <= v).
Proof.
  intros Hne He Hst.
  destruct (built_curves _ _ _ _ _ _ _ He)
    as [_ [_ [_ [H4 [_ [H6 _]]]]]].
  destruct (soil_type_of_built e st Hst)
    as [cm [cd [-> [_ [Hsd [_ [Hvd _]]]]]]].
  assert (Hmono : nondecreasing (_values cd)).
  { apply finite_nondecreasing. rewrite <- Hvd.
    destruct (init_built _ _ _ _ _ _ _ He)
      as [sr [cv [dmin [lab [_ [_ [_ ->]]]]]]].
    cbn [es_damping fc_values].
    apply percent_monotone. apply maximum_accumulate_monotone. }
  destruct (_values cd) as [|d0 rest] eqn:Ev.
  - exfalso. rewrite Hvd in H6. cbn in H6.
    destruct strains; [congruence | discriminate].
  - exists cd, d0. cbn [damping SoilType_init].
    split; [reflexivity|]. split; [rewrite Hsd; exact H4|].
    split; [rewrite Ev; exact Hvd|]. split; [rewrite Ev; exact Hmono|].
    split; [rewrite Ev; reflexivity|].
    split; [unfold es_damping_min; rewrite Hvd; reflexivity|].
    split.
    + unfold damping_min, SoilType_init. cbn [damping]. rewrite Ev.
      reflexivity.
    + intros v Hv. rewrite Ev in Hv.
      apply (nondecreasing_first (d0 :: rest) d0 v Hmono);
        [reflexivity | exact Hv].
Qed.

(** X18: the tag of a [NonlinearProperty] is checked when it is built: a
    non-empty tag other than [mod_reduc] and [damping] raises
    [AssertionError]; no tag, the empty tag and the two known tags are
    accepted and stored with the name, the strains and the values. *)
Theorem param_must_be_known (nm : string) (strains values : list Q) :
  (forall tag,
     tag <> ""%string -> tag <> "mod_reduc"%string ->
     tag <> "damping"%string ->
     NonlinearProperty_init nm strains values (Some tag)
     = Raise AssertionError)
  /\ (forall param,
        In param [None; Some ""%string; Some "mod_reduc"%string;
                  Some "damping"%string] ->
        exists p,
          NonlinearProperty_init nm strains values param = Ok p
          /\ name p = nm /\ _strains p = strains /\ _values p = values
          /\ _param p = param).
Proof.
  split.
  - intros tag H0 H1 H2.
    apply String.eqb_neq in H0, H1, H2.
    unfold NonlinearProperty_init, set_param, PARAMS. cbn.
    rewrite H0, H1, H2. reflexivity.
  - intros param Hin.
    assert (Hok : exists p,
               NonlinearProperty_init nm strains values param = Ok p).
    { cbn in Hin.
      destruct Hin as [<-|[<-|[<-|[<-|[]]]]]; eexists; reflexivity. }
    destruct Hok as [p Hp]. exists p. split; [exact Hp|].
    exact (NonlinearProperty_init_stores _ _ _ _ _ Hp).
Qed.

(** X19: a [NonlinearProperty] built with no strains, or with a number of
    values other than the number of strains, has no interpolater, and
    evaluating it at any strain raises [TypeError]. *)
Theorem inconsistent_curve_not_callable (nm : string)
  (strains values : list Q) (param : option string)
  (p : NonlinearProperty) :
  strains = [] \/ length strains <> length values ->
  NonlinearProperty_init nm strains values param = Ok p ->
  _interpolater p = None
  /\ forall s, NonlinearProperty_call p s = Raise TypeError.
Proof.
  intros Hbad Hp.
  assert (Hnone : _interpolater p = None).
  { unfold NonlinearProperty_init in Hp.
    destruct (set_param _ param) as [q|] eqn:Eq; [|discriminate].
    cbn [bind] in Hp. injection Hp as <-.
    assert (Hq : _strains q = strains /\ _values q = values
                 /\ _interpolater q = None).
    { unfold set_param in Eq.
      destruct param as [tag|].
      - destruct (String.eqb tag "");
          [|destruct (existsb (String.eqb tag) PARAMS); [|discriminate]];
          injection Eq as <-; repeat split.
      - injection Eq as <-. repeat split. }
    destruct Hq as [Hs [Hv Hi]].
    rewrite update_leaves; [exact Hi|]. rewrite Hs, Hv. exact Hbad. }
  split; [exact Hnone|].
  intro s. unfold NonlinearProperty_call. rewrite Hnone. reflexivity.
Qed.

(** X20: assigning [values] of another length than [strains] stores them
    but leaves the interpolater as it was: the property keeps evaluating to
    the curve of the values it held before. *)
Theorem stale_interpolater (p : NonlinearProperty) (values : list Q) :
  length (_strains p) <> length values ->
  _values (set_values p values) = values
  /\ _interpolater (set_values p values) = _interpolater p
  /\ forall s,
       NonlinearProperty_call (set_values p values) s
       = NonlinearProperty_call p s.
Proof.
  intro Hlen. unfold set_values.
  rewrite update_leaves by (right; exact Hlen).
  repeat split.
Qed.

End CurveProperties.

(** X17, on the Darendeli clay over the three-point grid. *)
Lemma damping_min_is_minimum_witness :
  @soil_type_of rational_numerics example_darendeli
  = Some example_darendeli_soil
  /\ exists cd d0,
       damping example_darendeli_soil = PCurve cd
       /\ _strains cd = [0.0001; 0.001; 0.01]
       /\ fc_values (es_damping example_darendeli) = map Fin (_values cd)
       /\ nondecreasing (_values cd)
       /\ hd_error (_values cd) = Some d0
       /\ es_damping_min example_darendeli = Ok (Fin d0)
       /\ damping_min example_darendeli_soil = Ok (NpNum (Fin d0))
       /\ (forall v, In v (_values cd) -> d0 <= v).
Proof.
  assert (He : @DarendeliSoilType rational_numerics "clay" 18 0 1 101.3 1
                 10 [0.0001; 0.001; 0.01] = Ok (Built example_darendeli)).
  { vm_compute. reflexivity. }
  assert (Hst : @soil_type_of rational_numerics example_darendeli
                = Some example_darendeli_soil).
  { vm_compute. reflexivity. }
  split; [exact Hst|].
  apply (@damping_min_is_minimum rational_numerics "clay"%string 18 0 1
           101.3 1 10 [0.0001; 0.001; 0.01] example_darendeli
           example_darendeli_soil); [discriminate | exact He | exact Hst].
Defined.


(** X18, with the tag [gmax]. *)
Lemma param_must_be_known_witness :
  @NonlinearProperty_init rational_numerics "G" [0.001; 0.01] [1; 0.5]
    (Some "gmax"%string) = Raise AssertionError.
Proof.
  apply (proj1 (@param_must_be_known rational_numerics "G"%string
                  [0.001; 0.01] [1; 0.5])); discriminate.
Defined.

(** X19, on the curve given two strains and one value. *)
Lemma inconsistent_curve_not_callable_witness :
  _interpolater unbuilt_curve = None
  /\ forall s,
       @NonlinearProperty_call rational_numerics unbuilt_curve s
       = Raise TypeError.
Proof.
  apply (@inconsistent_curve_not_callable rational_numerics "short"%string
           [0.001; 0.01] [0.05] None).
  - right. discriminate.
  - reflexivity.
Defined.

(** X20, giving three values to the two-point curve. *)
Lemma stale_interpolater_witness :
  _values (@set_values rational_numerics example_mod_reduc [1; 0.5; 0.2])
  = [1; 0.5; 0.2]
  /\ _interpolater
       (@set_values rational_numerics example_mod_reduc [1; 0.5; 0.2])
     = _interpolater example_mod_reduc
  /\ forall s,
       @NonlinearProperty_call rational_numerics
         (@set_values rational_numerics example_mod_reduc [1; 0.5; 0.2]) s
       = @NonlinearProperty_call rational_numerics example_mod_reduc s.
Proof.
  apply (@stale_interpolater rational_numerics example_mod_reduc
           [1; 0.5; 0.2]).
  discriminate.
Defined.

(** ** Further properties of layers *)

Section LayerEdges.
Context `{N : Numerics}.

(** X21: a layer cannot be built on a soil type whose damping curve holds
    no value: [damping_min] indexes the first value, and the [IndexError]
    is not the [AttributeError] it catches. *)
Theorem empty_damping_curve_rejected (st : SoilType) (c : NonlinearProperty)
  (thick vel : Q) :
  damping st = PCurve c ->
  _values c = [] ->
  damping_min st = Raise IndexError
  /\ Layer_init st thick vel = Raise IndexError.
Proof.
  intros Hd Hv.
  assert (Hmin : damping_min st = Raise IndexError).
  { unfold damping_min. rewrite Hd, Hv. reflexivity. }
  split; [exact Hmin|].
  unfold Layer_init, Layer_reset. cbn [soil_type _soil_type].
  rewrite Hmin. reflexivity.
Qed.

(** X22: [max_error] treats a NaN error unevenly: Python's [max] keeps its
    first argument unless the second compares greater, so a NaN damping
    error is dropped behind the modulus error, while a NaN modulus error
    is what is returned. *)
Theorem max_error_and_nan (l : Layer) :
  (forall a,
     relative_error (shear_mod l) = Ok a ->
     relative_error (Layer_damping l) = Ok NaN ->
     max_error l = Ok a)
  /\ (forall b,
        relative_error (shear_mod l) = Ok NaN ->
        relative_error (Layer_damping l) = Ok b ->
        max_error l = Ok NaN).
Proof.
  split.
  - intros a Ha Hb. unfold max_error. rewrite Ha, Hb. cbn [bind].
    unfold py_max, np_gtb. destruct a; reflexivity.
  - intros b Ha Hb. unfold max_error. rewrite Ha, Hb. cbn [bind].
    unfold py_max, np_gtb. destruct b; reflexivity.
Qed.

End LayerEdges.

(** X21, on a soil type damped by the empty curve. *)
Lemma empty_damping_curve_rejected_witness :
  damping_min (SoilType_init "bare" 18 PNone (PCurve empty_curve))
  = Raise IndexError
  /\ @Layer_init rational_numerics
       (SoilType_init "bare" 18 PNone (PCurve empty_curve)) 10 200
     = Raise IndexError.
Proof.
  apply (@empty_damping_curve_rejected rational_numerics
           (SoilType_init "bare" 18 PNone (PCurve empty_curve))
           empty_curve 10 200); reflexivity.
Defined.

(** X22, on the layer without damping after the same strain twice: the
    damping error is NaN, and [max_error] is the modulus error, zero. *)
Lemma max_error_and_nan_witness :
  exists a,
    relative_error (shear_mod undamped_layer_twice) = Ok a
    /\ is_zero a
    /\ relative_error (Layer_damping undamped_layer_twice) = Ok NaN
    /\ max_error undamped_layer_twice = Ok a.
Proof.
  eexists.
  split; [vm_compute; reflexivity|].
  split; [vm_compute; reflexivity|].
  split; [vm_compute; reflexivity|].
  apply (proj1 (max_error_and_nan undamped_layer_twice));
    vm_compute; reflexivity.
Defined.

(** X1, on the column of 10 m and 15 m over a halfspace. *)
Lemma profile_construction_chains_witness :
  exists p,
    @Profile_init rational_numerics example_layers 0 = Ok p
    /\ wt_depth p = 0
    /\ map thickness (data p) = map thickness example_layers
    /\ map soil_type (data p) = map soil_type example_layers
    /\ (example_layers = [] \/
        Forall (fun l => _profile l = Some {| ref_wt_depth := 0 |})
          (data p))
    /\ (forall l, hd_error (data p) = Some l ->
          depth l = 0 /\ _vert_stress l = 0)
    /\ chained (data p).
Proof.
  exact (@profile_construction_chains rational_numerics example_layers 0).
Defined.

(** X16, on the Darendeli clay over the three-point grid, and on the same
    arguments with an overconsolidation ratio of zero, then with a mean
    stress of zero. *)
Lemma darendeli_construction_witness :
  (exists e,
     @DarendeliSoilType rational_numerics "clay" 18 0 1 101.3 1 10
       [0.0001; 0.001; 0.01] = Ok (Built e)
     /\ es_name e = "clay"%string /\ es_unit_wt e = 18
     /\ fc_strains (es_mod_reduc e) = [0.0001; 0.001; 0.01]
     /\ fc_strains (es_damping e) = [0.0001; 0.001; 0.01]
     /\ length (fc_values (es_mod_reduc e)) = length [0.0001; 0.001; 0.01]
     /\ length (fc_values (es_damping e)) = length [0.0001; 0.001; 0.01]
     /\ fc_param (es_mod_reduc e) = Some "mod_reduc"%string
     /\ fc_param (es_damping e) = Some "damping"%string
     /\ forall st,
          @soil_type_of rational_numerics e = Some st ->
          is_nonlinear st = true
          /\ unit_wt st = 18
          /\ exists cm cd,
               mod_reduc st = PCurve cm /\ damping st = PCurve cd
               /\ _strains cm = [0.0001; 0.001; 0.01]
               /\ _strains cd = [0.0001; 0.001; 0.01]
               /\ length (_values cm) = length [0.0001; 0.001; 0.01]
               /\ length (_values cd) = length [0.0001; 0.001; 0.01]
               /\ ([0.0001; 0.001; 0.01] <> [] ->
                   (exists ip, _interpolater cm = Some ip)
                   /\ (exists ip, _interpolater cd = Some ip)))
  /\ @DarendeliSoilType rational_numerics "clay" 18 0 0 101.3 1 10
       [0.0001; 0.001; 0.01] = Raise ZeroDivisionError
  /\ @DarendeliSoilType rational_numerics "clay" 18 0 1 0 1 10
       [0.0001; 0.001; 0.01] = Raise ZeroDivisionError.
Proof.
  split; [|split].
  - apply (proj1 (@darendeli_construction rational_numerics "clay"%string
                    18 0 1 101.3 1 10 [0.0001; 0.001; 0.01]));
      reflexivity.
  - apply (proj1 (proj2 (@darendeli_construction rational_numerics
                           "clay"%string 18 0 0 101.3 1 10
                           [0.0001; 0.001; 0.01])));
      [reflexivity | vm_compute; discriminate].
  - apply (proj2 (proj2 (@darendeli_construction rational_numerics
                           "clay"%string 18 0 1 0 1 10
                           [0.0001; 0.001; 0.01])));
      reflexivity.
Defined.
